(** * MelodyForge bot (src/bot.py): interaction pipeline, verified model

    A shallow embedding of the handlers of [src/bot.py] and of the
    collaborators they call:

    - the user store ([Database]) as finite maps and lists;
    - the Last.fm client ([LastFMClient]) over dynamically typed JSON values,
      with Python's exceptions written out;
    - the media acquirer ([download_audio]) over a set of existing paths;
    - the two pipeline handlers [similar_command] and [message_handler] in a
      state-and-exception monad, whose state also records what the handler
      sent and which collaborators it called.

    Text is modelled by [string], one [ascii] per character. *)

From Stdlib Require Import ZArith Lia Ascii String.
From stdpp Require Import base option numbers list strings gmap sorting.

Local Open Scope string_scope.
Local Open Scope list_scope.
Local Set Warnings "-register-all".

(** ** Python exceptions and fallible pure code *)

(** The exception classes the modelled code can raise; every one of them is a
    subclass of [Exception], so [except Exception] catches them all. *)
Inductive exn :=
  | TypeError
  | KeyError
  | AttributeError
  | IndexError
  | ValueError
  | FileNotFoundError
  | TransportError.

Inductive outcome (A : Type) :=
  | Ret (a : A)
  | Raise (e : exn).
Arguments Ret {A} a.
Arguments Raise {A} e.

Definition obind {A B} (x : outcome A) (f : A -> outcome B) : outcome B :=
  match x with
  | Ret a => f a
  | Raise e => Raise e
  end.

Notation "x <~ e ;; k" := (obind e (fun x => k))
  (at level 60, e at next level, right associativity).

(** A loop body run over a list, stopping at the first exception. *)
Fixpoint omap {A B} (f : A -> outcome B) (l : list A) : outcome (list B) :=
  match l with
  | [] => Ret []
  | x :: l' => y <~ f x ;; ys <~ omap f l' ;; Ret (y :: ys)
  end.

(** ** Strings: the [str] methods the handlers use *)

Module PyStr.

Definition space : ascii := " "%char.
Definition dash : ascii := "-"%char.
Definition dot : ascii := "."%char.

(** [c in s] for a one-character [c]. *)
Fixpoint contains_char (c : ascii) (s : string) : bool :=
  match s with
  | EmptyString => false
  | String a s' => if Ascii.eqb a c then true else contains_char c s'
  end.

(** [sep.join(parts)]. *)
Fixpoint join (sep : string) (parts : list string) : string :=
  match parts with
  | [] => ""
  | [p] => p
  | p :: ps => p +:+ sep +:+ join sep ps
  end.

(** [s.split(c, 1)] as the pair (before, after) of the first [c];
    [None] when [c] does not occur, where Python returns [[s]]. *)
Fixpoint split_first (c : ascii) (s : string) : option (string * string) :=
  match s with
  | EmptyString => None
  | String a s' =>
      if Ascii.eqb a c then Some (EmptyString, s')
      else match split_first c s' with
           | Some (l, r) => Some (String a l, r)
           | None => None
           end
  end.

(** [s.split(c, 1)]: a list of one or two strings. *)
Definition split1 (c : ascii) (s : string) : list string :=
  match split_first c s with
  | Some (l, r) => [l; r]
  | None => [s]
  end.

(** [s.rsplit(c, 1)[0]]: what precedes the last [c], or [s] itself. *)
Fixpoint rsplit1_head (c : ascii) (s : string) : string :=
  match s with
  | EmptyString => EmptyString
  | String a s' =>
      if contains_char c s' then String a (rsplit1_head c s')
      else if Ascii.eqb a c then EmptyString
      else s
  end.

(** [ch.isspace()] for the code points below 256. *)
Definition isspace (a : ascii) : bool :=
  let n := nat_of_ascii a in
  (((9 <=? n) && (n <=? 13)) || ((28 <=? n) && (n <=? 32))
   || (n =? 133) || (n =? 160))%nat.

Fixpoint lstrip (s : string) : string :=
  match s with
  | EmptyString => EmptyString
  | String a s' => if isspace a then lstrip s' else s
  end.

Fixpoint rstrip (s : string) : string :=
  match s with
  | EmptyString => EmptyString
  | String a s' =>
      match rstrip s' with
      | EmptyString => if isspace a then EmptyString else String a EmptyString
      | t => String a t
      end
  end.

(** [s.strip()]. *)
Definition strip (s : string) : string := rstrip (lstrip s).

(** [needle in hay] for strings. *)
Fixpoint is_infix (needle hay : string) : bool :=
  String.prefix needle hay
  || match hay with
     | EmptyString => false
     | String _ hay' => is_infix needle hay'
     end.

(** Truth value of a [str]. *)
Definition truthy (s : string) : bool :=
  match s with EmptyString => false | _ => true end.

End PyStr.

(** ** JSON values as Python sees them *)

(** What [response.json()] yields. Objects keep their members in order;
    numbers are the integers. *)
Inductive json :=
  | JNull
  | JBool (b : bool)
  | JNum (z : Z)
  | JStr (s : string)
  | JList (l : list json)
  | JDict (d : list (string * json)).

Module Py.

(** [d.get(key)] on the members of an object. *)
Fixpoint assoc (key : string) (d : list (string * json)) : option json :=
  match d with
  | [] => None
  | (k, v) :: d' => if String.eqb k key then Some v else assoc key d'
  end.

Definition is_str (key : string) (v : json) : bool :=
  match v with JStr s => String.eqb s key | _ => false end.

(** [key in v]. *)
Definition contains (key : string) (v : json) : outcome bool :=
  match v with
  | JDict d => Ret (match assoc key d with Some _ => true | None => false end)
  | JList l => Ret (existsb (is_str key) l)
  | JStr s => Ret (PyStr.is_infix key s)
  | JNull | JBool _ | JNum _ => Raise TypeError
  end.

(** [v[key]] for a string [key]. *)
Definition getitem (v : json) (key : string) : outcome json :=
  match v with
  | JDict d => match assoc key d with Some x => Ret x | None => Raise KeyError end
  | _ => Raise TypeError
  end.

(** [v.get(key, default)]: only objects have the method. *)
Definition get (v : json) (key : string) (default : json) : outcome json :=
  match v with
  | JDict d => Ret (match assoc key d with Some x => x | None => default end)
  | _ => Raise AttributeError
  end.

(** [isinstance(v, dict)]. *)
Definition is_dict (v : json) : bool :=
  match v with JDict _ => true | _ => false end.

(** Truth value of [v], as [if v:] tests it. *)
Definition truthy (v : json) : bool :=
  match v with
  | JNull => false
  | JBool b => b
  | JNum z => negb (z =? 0)%Z
  | JStr s => PyStr.truthy s
  | JList l => match l with [] => false | _ => true end
  | JDict d => match d with [] => false | _ => true end
  end.

(** What [for x in v] iterates over. *)
Definition iter (v : json) : outcome (list json) :=
  match v with
  | JList l => Ret l
  | JDict d => Ret (map (fun kv => JStr (fst kv)) d)
  | JStr s => Ret (map (fun a => JStr (String a EmptyString)) (list_ascii_of_string s))
  | JNull | JBool _ | JNum _ => Raise TypeError
  end.

(** [v[0]]. *)
Definition first (v : json) : outcome json :=
  match v with
  | JList l => match l with x :: _ => Ret x | [] => Raise IndexError end
  | JStr s => match s with
              | String a _ => Ret (JStr (String a EmptyString))
              | EmptyString => Raise IndexError
              end
  | JDict _ => Raise KeyError
  | JNull | JBool _ | JNum _ => Raise TypeError
  end.

End Py.

(** ** The promotional cadence *)

(** [should_show_ad] (src/bot.py, 253-255). *)
Definition should_show_ad (interaction_count : Z) : bool :=
  (0 <? interaction_count)%Z && (interaction_count `mod` 10 =? 0)%Z.


(** ** The collaborators behind the handlers *)

(** What one handler run gets from the outside world. *)
Record Env := {
  (** [LASTFM_API_KEY] *)
  api_key : string;
  (** [session.get(LASTFM_API_URL, params=params)] then [response.json()]:
      the decoded body, or [None] when either raises. *)
  http_get_json : list (string * json) -> option json;
  (** [ydl.extract_info(..., download=True)], the choice of the first entry
      and [ydl.prepare_filename(info)]: the prepared file name ([None] when
      any of them raises) and the files present afterwards. *)
  ydl_run : string -> gset string -> option string * gset string;
  (** whether [reply_audio] of this file under this title goes through *)
  reply_audio_ok : string -> string -> bool;
  (** the index [random.choice] draws *)
  random_index : nat;
  (** how an f-string renders a JSON value *)
  py_str : json -> string
}.

(** An f-string renders a [str] as itself. *)
Definition renders_strings (E : Env) : Prop :=
  forall s, py_str E (JStr s) = s.

(** ** Metadata client: [LastFMClient] *)

Definition from_response (r : option json) : outcome json :=
  match r with
  | Some data => Ret data
  | None => Raise TransportError
  end.

(** [try: ... except Exception: log] followed by [return []]: the body's
    [return] value if it reached one, the empty list otherwise. *)
Definition or_empty (body : outcome (option json)) : json :=
  match body with
  | Ret (Some tracks) => tracks
  | Ret None | Raise _ => JList []
  end.

Definition search_params (E : Env) (query : string) (limit : Z)
  : list (string * json) :=
  [ ("method", JStr "track.search");
    ("track", JStr query);
    ("api_key", JStr (api_key E));
    ("format", JStr "json");
    ("limit", JNum limit) ].

(** [LastFMClient.search_track] (src/bot.py, 153-172). The shared session
    that [get_session] creates on first use is part of [http_get_json]. *)
Definition search_track (E : Env) (query : string) (limit : Z) : json :=
  or_empty (
    data <~ from_response (http_get_json E (search_params E query limit)) ;;
    has_results <~ Py.contains "results" data ;;
    has_matches <~ (if has_results : bool
                    then results <~ Py.getitem data "results" ;;
                         Py.contains "trackmatches" results
                    else Ret false) ;;
    if has_matches : bool then
      results <~ Py.getitem data "results" ;;
      trackmatches <~ Py.getitem results "trackmatches" ;;
      tracks <~ Py.get trackmatches "track" (JList []) ;;
      Ret (Some (if Py.is_dict tracks then JList [tracks] else tracks))
    else Ret None).

Definition similar_params (E : Env) (artist track : string) (limit : Z)
  : list (string * json) :=
  [ ("method", JStr "track.getSimilar");
    ("artist", JStr artist);
    ("track", JStr track);
    ("api_key", JStr (api_key E));
    ("format", JStr "json");
    ("limit", JNum limit) ].

(** [LastFMClient.get_similar_tracks] (src/bot.py, 174-194). *)
Definition get_similar_tracks (E : Env) (artist track : string) (limit : Z)
  : json :=
  or_empty (
    data <~ from_response (http_get_json E (similar_params E artist track limit)) ;;
    has_similar <~ Py.contains "similartracks" data ;;
    has_track <~ (if has_similar : bool
                  then similar <~ Py.getitem data "similartracks" ;;
                       Py.contains "track" similar
                  else Ret false) ;;
    if has_track : bool then
      similar <~ Py.getitem data "similartracks" ;;
      tracks <~ Py.getitem similar "track" ;;
      Ret (Some (if Py.is_dict tracks then JList [tracks] else tracks))
    else Ret None).

Definition top_params (E : Env) (limit : Z) : list (string * json) :=
  [ ("method", JStr "chart.getTopTracks");
    ("api_key", JStr (api_key E));
    ("format", JStr "json");
    ("limit", JNum limit) ].

(** [LastFMClient.get_top_tracks] (src/bot.py, 196-211). *)
Definition get_top_tracks (E : Env) (limit : Z) : json :=
  or_empty (
    data <~ from_response (http_get_json E (top_params E limit)) ;;
    has_tracks <~ Py.contains "tracks" data ;;
    has_track <~ (if has_tracks : bool
                  then tracks <~ Py.getitem data "tracks" ;;
                       Py.contains "track" tracks
                  else Ret false) ;;
    if has_track : bool then
      tracks <~ Py.getitem data "tracks" ;;
      track <~ Py.getitem tracks "track" ;;
      Ret (Some track)
    else Ret None).

(** ** User store: [Database] *)

(** A row of [users]: the columns [username], [mode], [interaction_count],
    keyed by [user_id]. The timestamp columns, which no handler reads, are
    left out, and so is the table [preferences], which nothing touches. *)
Record user_row := {
  username : string;
  mode : string;
  interaction_count : Z
}.

(** A row of [downloads]. *)
Record download_row := {
  dl_user_id : Z;
  dl_track_name : string;
  dl_artist : string
}.

Record Database := {
  users : gmap Z user_row;
  downloads : list download_row
}.

Definition set_users (f : gmap Z user_row -> gmap Z user_row) (db : Database)
  : Database :=
  {| users := f (users db); downloads := downloads db |}.

(** [Database.get_user] (src/bot.py, 80-86): the row, or [None]. *)
Definition get_user (user_id : Z) (db : Database) : option user_row :=
  users db !! user_id.

(** [Database.create_user] (src/bot.py, 88-96): [INSERT OR IGNORE], the other
    columns taking their defaults ['basic'] and [0]. *)
Definition create_user (user_id : Z) (name : string) (db : Database)
  : Database :=
  match users db !! user_id with
  | Some _ => db
  | None =>
      set_users
        (insert user_id {| username := name; mode := "basic"; interaction_count := 0 |})
        db
  end.

(** [Database.update_mode] (src/bot.py, 98-103). *)
Definition update_mode (user_id : Z) (new_mode : string) (db : Database)
  : Database :=
  set_users
    (alter (fun r => {| username := username r; mode := new_mode;
                        interaction_count := interaction_count r |}) user_id)
    db.

Definition bump (r : user_row) : user_row :=
  {| username := username r; mode := mode r;
     interaction_count := interaction_count r + 1 |}.

(** [Database.increment_interaction] (src/bot.py, 105-116): the [UPDATE]
    touches the row if there is one; [cursor.fetchone()] is the row's count,
    or [None] when no row matches, and then [None[0]] raises [TypeError]
    before anything is committed. *)
Definition increment_interaction (user_id : Z) (db : Database)
  : outcome Z * Database :=
  let updated := set_users (alter bump user_id) db in
  match users updated !! user_id with
  | Some r => (Ret (interaction_count r), updated)
  | None => (Raise TypeError, db)
  end.

(** [Database.add_download] (src/bot.py, 118-126). *)
Definition add_download (user_id : Z) (track_name artist : string)
  (db : Database) : Database :=
  {| users := users db;
     downloads := downloads db ++
       [ {| dl_user_id := user_id; dl_track_name := track_name;
            dl_artist := artist |} ] |}.

(** ** What a handler sends and calls *)

(** The texts the handlers send, by the place that sends them; the parts
    computed at run time are the arguments. *)
Inductive reply :=
  | UsageHint                      (* similar_command, 382-386 *)
  | BadFormat                      (* similar_command, 396-399 *)
  | SearchingSimilar               (* similar_command, 402 *)
  | SimilarList (artist track : string) (lines : list (string * string))
                                   (* similar_command, 407-413 *)
  | SimilarNotFound                (* similar_command, 415-417 *)
  | SearchingMusic                 (* message_handler, 441 *)
  | SearchResults (lines : list (string * string))
                                   (* message_handler, 448-454 *)
  | Downloading                    (* message_handler, 467 *)
  | SendError                      (* message_handler, 490-492 *)
  | DownloadFailed                 (* message_handler, 494-496 *)
  | Ad (index : nat)               (* AD_MESSAGES[index] *)
  | TopTracksList (lines : list (string * string))
                                   (* button_handler, 336-341 *)
  | TopTracksFailed.               (* button_handler, 343 *)

Inductive event :=
  (** [update.message.reply_text] *)
  | Replied (r : reply)
  (** [update.message.reply_audio] of the open file, and whether it went
      through *)
  | AudioSent (path title performer : string) (delivered : bool)
  (** [download_audio(query)] *)
  | Acquired (query : string)
  (** [should_show_ad(count)] *)
  | AdChecked (count : Z).

Record World := {
  db : Database;
  (** the paths at which a file exists *)
  files : gset string;
  (** what the handler did, oldest first *)
  trace : list event
}.

Definition set_db (d : Database) (w : World) : World :=
  {| db := d; files := files w; trace := trace w |}.
Definition set_files (f : gset string) (w : World) : World :=
  {| db := db w; files := f; trace := trace w |}.
Definition log (e : event) (w : World) : World :=
  {| db := db w; files := files w; trace := trace w ++ [e] |}.

(** ** The handlers' monad: state, and exceptions that keep the state *)

Definition M (A : Type) : Type := World -> outcome A * World.

Definition ret {A} (a : A) : M A := fun w => (Ret a, w).

Definition bind {A B} (m : M A) (f : A -> M B) : M B :=
  fun w =>
    match m w with
    | (Ret a, w') => f a w'
    | (Raise e, w') => (Raise e, w')
    end.

Notation "x <- e ;; k" := (bind e (fun x => k))
  (at level 60, e at next level, right associativity).
Notation "e ;;; k" := (bind e (fun _ => k))
  (at level 60, right associativity).

Definition lift {A} (x : outcome A) : M A := fun w => (x, w).

(** [try: body except Exception: handler]. *)
Definition try_except {A} (body : M A) (handler : exn -> M A) : M A :=
  fun w =>
    match body w with
    | (Ret a, w') => (Ret a, w')
    | (Raise e, w') => handler e w'
    end.

Definition query_db {A} (f : Database -> A) : M A :=
  fun w => (Ret (f (db w)), w).
Definition update_db (f : Database -> Database) : M unit :=
  fun w => (Ret tt, set_db (f (db w)) w).
Definition call_db {A} (f : Database -> outcome A * Database) : M A :=
  fun w => let '(r, d) := f (db w) in (r, set_db d w).

Definition reply_text (r : reply) : M unit :=
  fun w => (Ret tt, log (Replied r) w).

(** [os.path.exists(path)]. *)
Definition path_exists (path : string) : M bool :=
  fun w => (Ret (bool_decide (path ∈ files w)), w).

(** [open(path, 'rb')]. *)
Definition open_rb (path : string) : M unit :=
  fun w =>
    if bool_decide (path ∈ files w) then (Ret tt, w)
    else (Raise FileNotFoundError, w).

(** [os.remove(path)]. *)
Definition os_remove (path : string) : M unit :=
  fun w =>
    if bool_decide (path ∈ files w) then (Ret tt, set_files (files w ∖ {[path]}) w)
    else (Raise FileNotFoundError, w).

(** [update.message.reply_audio(audio=..., title=..., performer=...)]. *)
Definition reply_audio (E : Env) (path title performer : string) : M unit :=
  fun w =>
    let delivered := reply_audio_ok E path title in
    (if delivered then Ret tt else Raise TransportError,
     log (AudioSent path title performer delivered) w).

(** ** Media acquirer *)

(** [download_audio] (src/bot.py, 221-250). *)
Definition download_audio (E : Env) (query : string) : M (option string) :=
  fun w =>
    let '(prepared, files') := ydl_run E ("ytsearch1:" +:+ query) (files w) in
    let w' := set_files files' (log (Acquired query) w) in
    match prepared with
    | Some filename =>
        let base_filename := PyStr.rsplit1_head PyStr.dot filename in
        let mp3_filename := base_filename +:+ ".mp3" in
        (Ret (Some mp3_filename), w')
    | None => (Ret None, w')
    end.

(** ** The pipeline handlers *)

(** What the transport hands to a handler: [update.effective_user] and
    [update.message.text]. *)
Record Update := {
  user_id : Z;
  user_username : option string;
  first_name : string;
  text : string
}.

(** [user.username or user.first_name]. *)
Definition display_name (u : Update) : string :=
  match user_username u with
  | Some name => if PyStr.truthy name then name else first_name u
  | None => first_name u
  end.

Definition AD_MESSAGES : list reply := [Ad 0; Ad 1; Ad 2].

(** [random.choice(AD_MESSAGES)]. *)
Definition random_ad (E : Env) : reply :=
  nth (Nat.modulo (random_index E) (length AD_MESSAGES)) AD_MESSAGES (Ad 0).

(** The promotional check that ends both flows (src/bot.py, 421-423 and
    499-501). *)
Definition show_ad (E : Env) (count : Z) : M unit :=
  fun w =>
    let w' := log (AdChecked count) w in
    if should_show_ad count then reply_text (random_ad E) w'
    else (Ret tt, w').

(** One line of the list of similar tracks (src/bot.py, 409-411). *)
Definition similar_line (E : Env) (similar : json) : outcome (string * string) :=
  s_artist_obj <~ Py.get similar "artist" (JDict []) ;;
  s_artist <~ Py.get s_artist_obj "name" (JStr "Unknown") ;;
  s_name <~ Py.get similar "name" (JStr "Unknown") ;;
  Ret (py_str E s_artist, py_str E s_name).

(** [similar_command], 406-417: the text that reports the similar tracks;
    building it raises when a track is not of the expected shape. *)
Definition similar_listing (E : Env) (artist track : string)
  (similar_tracks : json) : outcome reply :=
  if Py.truthy similar_tracks then
    items <~ Py.iter similar_tracks ;;
    lines <~ omap (similar_line E) items ;;
    Ret (SimilarList artist track lines)
  else Ret SimilarNotFound.

(** One line of the chart (src/bot.py, 338-340). *)
Definition chart_line (E : Env) (track : json) : outcome (string * string) :=
  artist_obj <~ Py.get track "artist" (JDict []) ;;
  artist <~ Py.get artist_obj "name" (JStr "Unknown") ;;
  name <~ Py.get track "name" (JStr "Unknown") ;;
  Ret (py_str E artist, py_str E name).

(** [button_handler], 335-343: the text shown for the chart that
    [get_top_tracks] returned. *)
Definition top_tracks_listing (E : Env) (tracks : json) : outcome reply :=
  if Py.truthy tracks then
    items <~ Py.iter tracks ;;
    lines <~ omap (chart_line E) items ;;
    Ret (TopTracksList lines)
  else Ret TopTracksFailed.

(** [similar_command] (src/bot.py, 377-423); [args] is [context.args]. *)
Definition similar_command (E : Env) (u : Update) (args : list string) : M unit :=
  let user_id := user_id u in
  match args with
  | [] => reply_text UsageHint
  | _ =>
    let query := PyStr.join " " args in
    if PyStr.contains_char PyStr.dash query then
      match PyStr.split1 PyStr.dash query with
      | [artist; track] =>
          let artist := PyStr.strip artist in
          let track := PyStr.strip track in
          reply_text SearchingSimilar ;;;
          let similar_tracks := get_similar_tracks E artist track 8 in
          text <- lift (similar_listing E artist track similar_tracks) ;;
          reply_text text ;;;
          count <- call_db (increment_interaction user_id) ;;
          show_ad E count
      | _ => lift (Raise ValueError)
      end
    else reply_text BadFormat
  end.

(** [message_handler], 431-436: the user's row, created when missing, and
    its mode. *)
Definition resolve_mode (u : Update) : M string :=
  user <- query_db (get_user (user_id u)) ;;
  user <- (match user with
           | Some _ => ret user
           | None =>
               update_db (create_user (user_id u) (display_name u)) ;;;
               query_db (get_user (user_id u))
           end) ;;
  ret (match user with Some row => mode row | None => "basic" end).

(** One line of the search results (src/bot.py, 450-452). *)
Definition result_line (E : Env) (track : json) : outcome (string * string) :=
  artist <~ Py.get track "artist" (JStr "Unknown") ;;
  name <~ Py.get track "name" (JStr "Unknown") ;;
  Ret (py_str E artist, py_str E name).

(** [message_handler], 448-453: the text that lists the results. *)
Definition search_listing (E : Env) (tracks : json) : outcome reply :=
  items <~ Py.iter tracks ;;
  lines <~ omap (result_line E) items ;;
  Ret (SearchResults lines).

(** [message_handler], 457-460: the query made of the first result. *)
Definition first_result_query (E : Env) (tracks : json) : outcome string :=
  first_track <~ Py.first tracks ;;
  artist <~ Py.get first_track "artist" (JStr "Unknown") ;;
  name <~ Py.get first_track "name" (JStr "Unknown") ;;
  Ret (py_str E artist +:+ " " +:+ py_str E name).

(** [message_handler], 443-464: the download query. *)
Definition choose_download_query (E : Env) (mode query : string) : M string :=
  if String.eqb mode "advanced" then
    let tracks := search_track E query 5 in
    if Py.truthy tracks then
      text <- lift (search_listing E tracks) ;;
      reply_text text ;;;
      lift (first_result_query E tracks)
    else ret query
  else ret query.

(** [file_path and os.path.exists(file_path)]. *)
Definition acquired (file_path : option string) : M bool :=
  match file_path with
  | Some path => if PyStr.truthy path then path_exists path else ret false
  | None => ret false
  end.

(** [message_handler], 471-496: delivery, history and clean-up. *)
Definition deliver (E : Env) (user_id : Z) (download_query : string)
  (file_path : option string) : M unit :=
  ok <- acquired file_path ;;
  if ok : bool then
    let file_path := default "" file_path in
    try_except
      (open_rb file_path ;;;
       reply_audio E file_path download_query "MelodyForge" ;;;
       let parts := PyStr.split1 PyStr.space download_query in
       let artist := default "Unknown" (parts !! 0%nat) in
       let track := default download_query (parts !! 1%nat) in
       update_db (add_download user_id track artist) ;;;
       os_remove file_path)
      (fun _ => reply_text SendError)
  else reply_text DownloadFailed.

(** [message_handler], 428-469: everything up to the acquisition; the
    count after the increment, the download query and what [download_audio]
    returned. *)
Definition acquire (E : Env) (u : Update) : M (Z * string * option string) :=
  let user_id := user_id u in
  let query := text u in
  mode <- resolve_mode u ;;
  count <- call_db (increment_interaction user_id) ;;
  reply_text SearchingMusic ;;;
  download_query <- choose_download_query E mode query ;;
  reply_text Downloading ;;;
  file_path <- download_audio E download_query ;;
  ret (count, download_query, file_path).

(** [message_handler] (src/bot.py, 426-501). *)
Definition message_handler (E : Env) (u : Update) : M unit :=
  acquisition <- acquire E u ;;
  let '(count, download_query, file_path) := acquisition in
  deliver E (user_id u) download_query file_path ;;;
  show_ad E count.

(** ** The user's row as [message_handler] finds or creates it *)

Definition fresh_row (u : Update) : user_row :=
  {| username := display_name u; mode := "basic"; interaction_count := 0 |}.

Definition row_of (u : Update) (d : Database) : user_row :=
  default (fresh_row u) (users d !! user_id u).

(** The artist and title stored for a download query (src/bot.py, 481-483). *)
Definition history_artist (download_query : string) : string :=
  default "Unknown" (PyStr.split1 PyStr.space download_query !! 0%nat).
Definition history_title (download_query : string) : string :=
  default download_query (PyStr.split1 PyStr.space download_query !! 1%nat).

(** ** Reading a trace *)

(** The counts on which the promotional check ran, in order. *)
Definition ad_checks (t : list event) : list Z :=
  flat_map (fun e => match e with AdChecked count => [count] | _ => [] end) t.

(** The queries handed to the acquirer, in order. *)
Definition acquisitions (t : list event) : list string :=
  flat_map (fun e => match e with Acquired query => [query] | _ => [] end) t.

(** The texts sent, in order. *)
Definition replies (t : list event) : list reply :=
  flat_map (fun e => match e with Replied r => [r] | _ => [] end) t.

(** The audio sends attempted, in order: path, title, delivered. *)
Definition audio_sends (t : list event) : list (string * string * bool) :=
  flat_map (fun e => match e with
                     | AudioSent path title _ delivered => [(path, title, delivered)]
                     | _ => []
                     end) t.

(** ** Concrete collaborators and worlds, for running the model *)

Module Sample.

Definition track (artist name : string) : json :=
  JDict [("name", JStr name); ("artist", JStr artist)].

Definition search_body (tracks : json) : json :=
  JDict [("results", JDict [("trackmatches", JDict [("track", tracks)])])].

Definition yesterday : json :=
  search_body (JList [track "The Beatles" "Yesterday";
                      track "Boyz II Men" "Yesterday"]).

Definition top_body (tracks : json) : json :=
  JDict [("tracks", JDict [("track", tracks)])].

Definition render (v : json) : string :=
  match v with
  | JStr s => s
  | _ => "?"
  end.

(** A provider that answers every request with [body], an acquirer that
    leaves its result at [/tmp/song.mp3], and a transport that delivers
    audio iff [delivers]. *)
Definition env (body : option json) (delivers : bool) : Env :=
  {| api_key := "key";
     http_get_json := fun _ => body;
     ydl_run := fun _ present => (Some "/tmp/song.webm", {["/tmp/song.mp3"]} ∪ present);
     reply_audio_ok := fun _ _ => delivers;
     random_index := 4;
     py_str := render |}.

(** The same, with an acquirer that reports a file it did not leave. *)
Definition env_missing_file : Env :=
  {| api_key := "key";
     http_get_json := fun _ => None;
     ydl_run := fun _ present => (Some "/tmp/song.webm", present);
     reply_audio_ok := fun _ _ => true;
     random_index := 4;
     py_str := render |}.

Definition empty_world : World :=
  {| db := {| users := ∅; downloads := [] |}; files := ∅; trace := [] |}.

Definition ann (message : string) : Update :=
  {| user_id := 7; user_username := None; first_name := "Ann";
     text := message |}.

(** Ann after [/start] and, when [advanced], the mode button. *)
Definition known_world (advanced : bool) : World :=
  let created := create_user 7 "Ann" (db empty_world) in
  set_db (if advanced then update_mode 7 "advanced" created else created)
         empty_world.

End Sample.

(** * The rest of the bot *)

(** ** The download history *)

(** [downloads] with its column [downloaded_at]: the rows are in insertion
    order, and [downloaded_at i] is the timestamp of the [i]-th of them. *)
Definition stamped (downloaded_at : nat -> Z) (rows : list download_row)
  : list (Z * download_row) :=
  imap (fun i row => (downloaded_at i, row)) rows.

(** [ORDER BY downloaded_at DESC]. Among rows of equal timestamp, whose
    order SQLite does not fix, the later row comes first here; nothing proved
    below depends on that choice. *)
Fixpoint insert_desc (x : Z * download_row) (l : list (Z * download_row))
  : list (Z * download_row) :=
  match l with
  | [] => [x]
  | y :: l' => if (fst y <? fst x)%Z then x :: l else y :: insert_desc x l'
  end.

Definition order_desc (l : list (Z * download_row)) : list (Z * download_row) :=
  foldr insert_desc [] l.

(** [LIMIT ?]: a negative limit is no limit. *)
Definition sql_limit {A} (limit : Z) (l : list A) : list A :=
  if (limit <? 0)%Z then l else take (Z.to_nat limit) l.

(** The rows that the query of [get_user_history] selects, in its order. *)
Definition history_rows (downloaded_at : nat -> Z) (user_id limit : Z)
  (db : Database) : list (Z * download_row) :=
  sql_limit limit
    (order_desc
       (filter (fun sr => dl_user_id (snd sr) = user_id)
               (stamped downloaded_at (downloads db)))).

(** [Database.get_user_history] (src/bot.py, 128-137): the pairs
    [(track_name, artist)]. *)
Definition get_user_history (downloaded_at : nat -> Z) (user_id limit : Z)
  (db : Database) : list (string * string) :=
  map (fun sr => (dl_track_name (snd sr), dl_artist (snd sr)))
      (history_rows downloaded_at user_id limit db).

(** ** The client's session *)

(** [LastFMClient.session], beside the [ClientSession] objects made so far
    (numbered in the order of their creation) and those that were closed. *)
Record ClientState := {
  session : option nat;
  sessions_made : nat;
  sessions_closed : gset nat
}.

(** [LastFMClient.__init__] (src/bot.py, 144-146). *)
Definition new_client : ClientState :=
  {| session := None; sessions_made := 0; sessions_closed := ∅ |}.

(** [LastFMClient.get_session] (src/bot.py, 148-151). *)
Definition get_session (c : ClientState) : nat * ClientState :=
  match session c with
  | None =>
      (sessions_made c,
       {| session := Some (sessions_made c);
          sessions_made := S (sessions_made c);
          sessions_closed := sessions_closed c |})
  | Some s => (s, c)
  end.

(** [LastFMClient.close] (src/bot.py, 213-215). *)
Definition close (c : ClientState) : ClientState :=
  match session c with
  | Some s =>
      {| session := session c;
         sessions_made := sessions_made c;
         sessions_closed := {[s]} ∪ sessions_closed c |}
  | None => c
  end.

Inductive client_call :=
  | GetSession
  | Close.

Definition client_step (c : ClientState) (call : client_call) : ClientState :=
  match call with
  | GetSession => snd (get_session c)
  | Close => close c
  end.

(** ** The menus *)

(** The texts of [start] and [button_handler], by the place that sends
    them. *)
Inductive screen :=
  | Welcome (first_name : string)    (* start, 263-277 *)
  | BasicActivated                   (* button_handler, 290-296 *)
  | AdvancedMenu                     (* button_handler, 300-312 *)
  | SearchHelp                       (* button_handler, 315-320 *)
  | RecommendationsHelp              (* button_handler, 323-329 *)
  | LoadingTopTracks                 (* button_handler, 332 *)
  | TopTracks (text : reply)         (* button_handler, 335-347 *)
  | History (lines : list (string * string))
                                     (* button_handler, 353-355: artist, track *)
  | HistoryEmpty                     (* button_handler, 357 *)
  | ModeMenu.                        (* button_handler, 364-374 *)

Inductive menu_event :=
  (** [update.message.reply_text] *)
  | MenuReplied (s : screen)
  (** [query.answer()] *)
  | CallbackAnswered
  (** [query.edit_message_text] *)
  | MessageEdited (s : screen).

(** [start] (src/bot.py, 258-277). *)
Definition start (u : Update) (d : Database) : Database * list menu_event :=
  (create_user (user_id u) (display_name u) d,
   [MenuReplied (Welcome (first_name u))]).

(** [button_handler] (src/bot.py, 280-374) for the button [data] pressed by
    [user_id]: how it ends, the store afterwards and what it sent. *)
Definition button_handler (E : Env) (downloaded_at : nat -> Z) (user_id : Z)
  (data : string) (d : Database)
  : outcome unit * Database * list menu_event :=
  if String.eqb data "mode_basic" then
    (Ret tt, update_mode user_id "basic" d,
     [CallbackAnswered; MessageEdited BasicActivated])
  else if String.eqb data "mode_advanced" then
    (Ret tt, update_mode user_id "advanced" d,
     [CallbackAnswered; MessageEdited AdvancedMenu])
  else if String.eqb data "adv_search" then
    (Ret tt, d, [CallbackAnswered; MessageEdited SearchHelp])
  else if String.eqb data "adv_recommendations" then
    (Ret tt, d, [CallbackAnswered; MessageEdited RecommendationsHelp])
  else if String.eqb data "adv_top_tracks" then
    let tracks := get_top_tracks E 10 in
    match top_tracks_listing E tracks with
    | Ret text =>
        (Ret tt, d,
         [CallbackAnswered; MessageEdited LoadingTopTracks;
          MessageEdited (TopTracks text)])
    | Raise e =>
        (Raise e, d, [CallbackAnswered; MessageEdited LoadingTopTracks])
    end
  else if String.eqb data "adv_history" then
    let history := get_user_history downloaded_at user_id 10 d in
    (Ret tt, d,
     [CallbackAnswered;
      MessageEdited
        (match history with
         | [] => HistoryEmpty
         | _ => History (map (fun entry => (snd entry, fst entry)) history)
         end)])
  else if String.eqb data "back_to_start" then
    (Ret tt, d, [CallbackAnswered; MessageEdited ModeMenu])
  else (Ret tt, d, [CallbackAnswered]).

(** ** Several messages in a row *)

(** The world after the free-text messages [msgs], handled one after the
    other, each with the collaborators it met. *)
Definition run_messages (msgs : list (Env * Update)) (w : World) : World :=
  foldl (fun w m => snd (message_handler (fst m) (snd m) w)) w msgs.

(** * Properties *)

(** ** The promotional cadence *)

(** C1. For every integer interaction count [c], [should_show_ad c] is true
    exactly when [c > 0] and [c mod 10 = 0]. *)
Theorem should_show_ad_iff (c : Z) :
  should_show_ad c = true <-> (c > 0 /\ c `mod` 10 = 0)%Z.
Proof.
  unfold should_show_ad.
  rewrite andb_true_iff, Z.ltb_lt, Z.eqb_eq. lia.
Qed.

(** ** The store *)

Lemma increment_interaction_present user_id d row :
  users d !! user_id = Some row ->
  increment_interaction user_id d
  = (Ret (interaction_count row + 1)%Z, set_users (alter bump user_id) d).
Proof.
  intros Hrow. unfold increment_interaction. simpl.
  rewrite lookup_alter_eq, Hrow. reflexivity.
Qed.

Lemma increment_interaction_absent user_id d :
  users d !! user_id = None ->
  increment_interaction user_id d = (Raise TypeError, d).
Proof.
  intros Hrow. unfold increment_interaction. simpl.
  rewrite lookup_alter_eq, Hrow. reflexivity.
Qed.

(** ** The metadata client *)

(** What [search_track] returns on a body of the documented nesting. *)
Lemma search_track_nested E query limit data results trackmatches :
  http_get_json E (search_params E query limit) = Some (JDict data) ->
  Py.assoc "results" data = Some (JDict results) ->
  Py.assoc "trackmatches" results = Some (JDict trackmatches) ->
  search_track E query limit
  = match Py.assoc "track" trackmatches with
    | Some tracks => if Py.is_dict tracks then JList [tracks] else tracks
    | None => JList []
    end.
Proof.
  intros Hget Hres Hmatch. unfold search_track.
  rewrite Hget. simpl. rewrite Hres. simpl. rewrite Hmatch. simpl.
  destruct (Py.assoc "track" trackmatches); reflexivity.
Qed.

Lemma get_similar_tracks_nested E artist track limit data similar tracks :
  http_get_json E (similar_params E artist track limit) = Some (JDict data) ->
  Py.assoc "similartracks" data = Some (JDict similar) ->
  Py.assoc "track" similar = Some tracks ->
  get_similar_tracks E artist track limit
  = if Py.is_dict tracks then JList [tracks] else tracks.
Proof.
  intros Hget Hsim Htrack. unfold get_similar_tracks.
  rewrite Hget. simpl. rewrite Hsim. simpl. rewrite Htrack. simpl.
  reflexivity.
Qed.

Lemma get_top_tracks_nested E limit data tracks track :
  http_get_json E (top_params E limit) = Some (JDict data) ->
  Py.assoc "tracks" data = Some (JDict tracks) ->
  Py.assoc "track" tracks = Some track ->
  get_top_tracks E limit = track.
Proof.
  intros Hget Htracks Htrack. unfold get_top_tracks.
  rewrite Hget. simpl. rewrite Htracks. simpl. rewrite Htrack. simpl.
  reflexivity.
Qed.

(** [search] and [getSimilar] do wrap a single object. *)
Lemma search_track_wraps_single_object E query limit data results trackmatches o :
  http_get_json E (search_params E query limit) = Some (JDict data) ->
  Py.assoc "results" data = Some (JDict results) ->
  Py.assoc "trackmatches" results = Some (JDict trackmatches) ->
  Py.assoc "track" trackmatches = Some (JDict o) ->
  search_track E query limit = JList [JDict o].
Proof.
  intros Hget Hres Hmatch Htrack.
  rewrite (search_track_nested _ _ _ _ _ _ Hget Hres Hmatch), Htrack.
  reflexivity.
Qed.

Lemma get_similar_tracks_wraps_single_object E artist track limit data similar o :
  http_get_json E (similar_params E artist track limit) = Some (JDict data) ->
  Py.assoc "similartracks" data = Some (JDict similar) ->
  Py.assoc "track" similar = Some (JDict o) ->
  get_similar_tracks E artist track limit = JList [JDict o].
Proof.
  intros Hget Hsim Htrack.
  rewrite (get_similar_tracks_nested _ _ _ _ _ _ _ Hget Hsim Htrack).
  reflexivity.
Qed.

(** In the chart listing an object is iterated by its keys, which are
    strings and have no [get]. *)
Lemma top_tracks_listing_of_object E o :
  o <> [] -> top_tracks_listing E (JDict o) = Raise AttributeError.
Proof.
  destruct o as [|[k v] o]; [contradiction |]. reflexivity.
Qed.

(** C4. The claim asks that every operation, [getTopTracks] included, turn a
    result field holding a single object into a one-element sequence.
    [get_top_tracks] does not: on such a body it returns the object itself,
    where its siblings [search_track] and [get_similar_tracks] wrap it, and
    the listing that [button_handler] builds from it raises. *)
Theorem get_top_tracks_keeps_single_object E limit data tracks o :
  http_get_json E (top_params E limit) = Some (JDict data) ->
  Py.assoc "tracks" data = Some (JDict tracks) ->
  Py.assoc "track" tracks = Some (JDict o) ->
  get_top_tracks E limit = JDict o
  /\ get_top_tracks E limit <> JList [JDict o]
  /\ (o <> [] ->
      top_tracks_listing E (get_top_tracks E limit) = Raise AttributeError).
Proof.
  intros Hget Htracks Htrack.
  rewrite (get_top_tracks_nested _ _ _ _ _ Hget Htracks Htrack).
  split; [reflexivity | split; [discriminate |]].
  apply top_tracks_listing_of_object.
Qed.

Lemma get_top_tracks_keeps_single_object_witness :
  let E := Sample.env (Some (Sample.top_body (Sample.track "Queen" "Bohemian Rhapsody"))) true in
  get_top_tracks E 10 = Sample.track "Queen" "Bohemian Rhapsody"
  /\ get_top_tracks E 10 <> JList [Sample.track "Queen" "Bohemian Rhapsody"]
  /\ top_tracks_listing E (get_top_tracks E 10) = Raise AttributeError.
Proof.
  intros E.
  destruct (get_top_tracks_keeps_single_object E 10
           [("tracks", JDict [("track", Sample.track "Queen" "Bohemian Rhapsody")])]
           [("track", Sample.track "Queen" "Bohemian Rhapsody")]
           [("name", JStr "Bohemian Rhapsody"); ("artist", JStr "Queen")]
           eq_refl eq_refl eq_refl) as (Hsame & Hnot & Hraise).
  split; [exact Hsame | split; [exact Hnot |]].
  apply Hraise. discriminate.
Defined.

(** The claim of C8 as stated fails: a provider that ignores the limit makes
    [search_track] return more than [limit] results. *)
Lemma search_track_exceeds_limit :
  ~ (forall E query limit l,
        search_track E query limit = JList l ->
        (Z.of_nat (length l) <= limit)%Z).
Proof.
  intros H.
  specialize (H (Sample.env (Some Sample.yesterday) true) "Yesterday" 1%Z _ eq_refl).
  simpl in H. lia.
Qed.

(** C8, amended. [search_track] sends [limit] to the provider as the
    request's [limit] parameter and returns the provider's track list as it
    is, in the provider's order; so the result has at most [limit] elements
    whenever the provider's list has. *)
Theorem search_track_returns_provider_list E query limit data results trackmatches ts :
  http_get_json E (search_params E query limit) = Some (JDict data) ->
  Py.assoc "results" data = Some (JDict results) ->
  Py.assoc "trackmatches" results = Some (JDict trackmatches) ->
  Py.assoc "track" trackmatches = Some (JList ts) ->
  Py.assoc "limit" (search_params E query limit) = Some (JNum limit)
  /\ search_track E query limit = JList ts
  /\ ((Z.of_nat (length ts) <= limit)%Z ->
      forall l, search_track E query limit = JList l ->
                (Z.of_nat (length l) <= limit)%Z).
Proof.
  intros Hget Hres Hmatch Htrack.
  assert (Hrun : search_track E query limit = JList ts).
  { rewrite (search_track_nested _ _ _ _ _ _ Hget Hres Hmatch), Htrack.
    reflexivity. }
  split; [reflexivity | split; [exact Hrun |]].
  intros Hlen l Hl. rewrite Hrun in Hl. injection Hl as <-. exact Hlen.
Qed.

Lemma search_track_returns_provider_list_witness :
  let E := Sample.env (Some Sample.yesterday) true in
  let ts := [Sample.track "The Beatles" "Yesterday";
             Sample.track "Boyz II Men" "Yesterday"] in
  Py.assoc "limit" (search_params E "Yesterday" 5) = Some (JNum 5)
  /\ search_track E "Yesterday" 5 = JList ts
  /\ ((Z.of_nat (length ts) <= 5)%Z ->
      forall l, search_track E "Yesterday" 5 = JList l ->
                (Z.of_nat (length l) <= 5)%Z).
Proof.
  intros E ts.
  apply (search_track_returns_provider_list E "Yesterday" 5
           [("results", JDict [("trackmatches", JDict [("track", JList ts)])])]
           [("trackmatches", JDict [("track", JList ts)])]
           [("track", JList ts)] ts);
    reflexivity.
Defined.

(** ** The [/similar] flow *)

(** C6. A [/similar] whose argument text has no ['-'], the empty argument
    list included, gets the usage hint or the format error and nothing else
    happens: the store and the files are as before, and the trace grows by
    that one reply, so the counter is not incremented and the promotional
    check does not run. *)
Theorem similar_command_rejects_missing_dash E u args w :
  PyStr.contains_char PyStr.dash (PyStr.join " " args) = false ->
  exists r,
    (r = UsageHint \/ r = BadFormat)
    /\ similar_command E u args w
       = (Ret tt, {| db := db w; files := files w;
                     trace := trace w ++ [Replied r] |})
    /\ ad_checks (trace w ++ [Replied r]) = ad_checks (trace w).
Proof.
  intros Hdash. destruct args as [|a args].
  - exists UsageHint. split; [now left | split; [reflexivity |]].
    unfold ad_checks. rewrite flat_map_app. simpl. apply app_nil_r.
  - exists BadFormat. split; [now right | split].
    + unfold similar_command. rewrite Hdash. reflexivity.
    + unfold ad_checks. rewrite flat_map_app. simpl. apply app_nil_r.
Qed.

Lemma similar_command_rejects_missing_dash_witness :
  exists r,
    (r = UsageHint \/ r = BadFormat)
    /\ similar_command (Sample.env None true) (Sample.ann "")
         ["Coldplay"; "Fix"; "You"] (Sample.known_world true)
       = (Ret tt, {| db := db (Sample.known_world true);
                     files := files (Sample.known_world true);
                     trace := trace (Sample.known_world true) ++ [Replied r] |})
    /\ ad_checks (trace (Sample.known_world true) ++ [Replied r])
       = ad_checks (trace (Sample.known_world true)).
Proof.
  apply (similar_command_rejects_missing_dash (Sample.env None true)
           (Sample.ann "") ["Coldplay"; "Fix"; "You"] (Sample.known_world true)).
  reflexivity.
Defined.

Lemma split_first_contains c s :
  PyStr.contains_char c s = true ->
  exists l r, PyStr.split_first c s = Some (l, r).
Proof.
  induction s as [|a s IH]; simpl; [discriminate |].
  destruct (Ascii.eqb a c); [eauto |].
  intros H. destruct (IH H) as (l & r & ->). eauto.
Qed.

Lemma split_first_some_contains c s l r :
  PyStr.split_first c s = Some (l, r) -> PyStr.contains_char c s = true.
Proof.
  revert l r. induction s as [|a s IH]; simpl; [discriminate |].
  intros l r. destruct (Ascii.eqb a c); [reflexivity |].
  destruct (PyStr.split_first c s) as [[l' r']|]; [| discriminate].
  intros _. exact (IH l' r' eq_refl).
Qed.

Lemma split1_two_contains c s l r :
  PyStr.split1 c s = [l; r] -> PyStr.contains_char c s = true.
Proof.
  unfold PyStr.split1.
  destruct (PyStr.split_first c s) as [[l' r']|] eqn:Hs; [| discriminate].
  intros _. exact (split_first_some_contains _ _ _ _ Hs).
Qed.

Lemma ad_checks_app t1 t2 : ad_checks (t1 ++ t2) = ad_checks t1 ++ ad_checks t2.
Proof. apply flat_map_app. Qed.

(** A well-formed [/similar] reports, then increments, then checks for the
    advertisement. *)
Lemma similar_command_well_formed E u args artist track :
  PyStr.split1 PyStr.dash (PyStr.join " " args) = [artist; track] ->
  similar_command E u args
  = (reply_text SearchingSimilar ;;;
     text <- lift (similar_listing E (PyStr.strip artist) (PyStr.strip track)
                     (get_similar_tracks E (PyStr.strip artist) (PyStr.strip track) 8)) ;;
     reply_text text ;;;
     count <- call_db (increment_interaction (user_id u)) ;;
     show_ad E count).
Proof.
  intros Hsplit. unfold similar_command.
  destruct args as [|a args]; [discriminate |].
  rewrite (split1_two_contains _ _ _ _ Hsplit), Hsplit. reflexivity.
Qed.

(** With a row for the user, a well-formed [/similar] whose report can be
    built increments the counter once and checks once, on the new count. *)
Lemma similar_command_counts_once E u args w artist track text row :
  PyStr.split1 PyStr.dash (PyStr.join " " args) = [artist; track] ->
  similar_listing E (PyStr.strip artist) (PyStr.strip track)
    (get_similar_tracks E (PyStr.strip artist) (PyStr.strip track) 8) = Ret text ->
  users (db w) !! user_id u = Some row ->
  exists w',
    similar_command E u args w = (Ret tt, w')
    /\ users (db w') = <[user_id u := bump row]> (users (db w))
    /\ ad_checks (trace w')
       = ad_checks (trace w) ++ [(interaction_count row + 1)%Z].
Proof.
  intros Hsplit Htext Hrow.
  rewrite (similar_command_well_formed _ _ _ _ _ Hsplit).
  unfold bind, reply_text, lift, call_db, show_ad. rewrite Htext. simpl.
  rewrite (increment_interaction_present _ _ _ Hrow).
  assert (Halter : alter bump (user_id u) (users (db w))
                   = <[user_id u := bump row]> (users (db w))).
  { apply map_eq. intros k. rewrite lookup_alter, lookup_insert.
    case_decide; subst; [rewrite Hrow |]; reflexivity. }
  destruct (should_show_ad (interaction_count row + 1)); eexists;
    (split; [reflexivity | split; [exact Halter |]]); simpl;
    rewrite !ad_checks_app; simpl; rewrite ?app_nil_r; reflexivity.
Qed.

(** C9. [increment_interaction] returns the count after the increment when
    the user has a row, and raises instead of returning a count when there
    is none; [similar_command] reaches it on the store it was given, no row
    having been created, so that a well-formed [/similar] from a user
    without a row ends in that [TypeError] once its report is sent. *)
Theorem increment_interaction_needs_row id d :
  (forall row, users d !! id = Some row ->
     increment_interaction id d
     = (Ret (interaction_count row + 1)%Z,
        set_users (alter bump id) d)
     /\ users (set_users (alter bump id) d) !! id = Some (bump row))
  /\ (users d !! id = None ->
      increment_interaction id d = (Raise TypeError, d))
  /\ (forall E u args w artist track text,
        user_id u = id -> db w = d ->
        users d !! id = None ->
        PyStr.split1 PyStr.dash (PyStr.join " " args) = [artist; track] ->
        similar_listing E (PyStr.strip artist) (PyStr.strip track)
          (get_similar_tracks E (PyStr.strip artist) (PyStr.strip track) 8)
        = Ret text ->
        similar_command E u args w
        = (Raise TypeError,
           {| db := d; files := files w;
              trace := trace w ++ [Replied SearchingSimilar; Replied text] |})).
Proof.
  split; [| split].
  - intros row Hrow. split.
    + exact (increment_interaction_present _ _ _ Hrow).
    + simpl. rewrite lookup_alter_eq, Hrow. reflexivity.
  - exact (increment_interaction_absent _ _).
  - intros E u args w artist track text Hu Hd Hrow Hsplit Htext. subst.
    rewrite (similar_command_well_formed _ _ _ _ _ Hsplit).
    unfold bind, reply_text, lift, call_db. rewrite Htext. simpl.
    rewrite (increment_interaction_absent _ _ Hrow).
    unfold set_db, log. simpl.
    rewrite <- app_assoc. reflexivity.
Qed.

Lemma increment_interaction_needs_row_witness :
  increment_interaction 7 (db (Sample.known_world false))
  = (Ret 1%Z, set_users (alter bump 7%Z) (db (Sample.known_world false)))
  /\ increment_interaction 7 (db Sample.empty_world)
     = (Raise TypeError, db Sample.empty_world)
  /\ similar_command (Sample.env None true) (Sample.ann "")
       ["Coldplay"; "-"; "Fix"; "You"] Sample.empty_world
     = (Raise TypeError,
        {| db := db Sample.empty_world; files := ∅;
           trace := [Replied SearchingSimilar; Replied SimilarNotFound] |}).
Proof.
  split; [| split].
  - destruct (increment_interaction_needs_row 7 (db (Sample.known_world false)))
      as [Hpresent _].
    exact (proj1 (Hpresent {| username := "Ann"; mode := "basic";
                              interaction_count := 0 |} eq_refl)).
  - destruct (increment_interaction_needs_row 7 (db Sample.empty_world))
      as (_ & Habsent & _).
    exact (Habsent eq_refl).
  - destruct (increment_interaction_needs_row 7 (db Sample.empty_world))
      as (_ & _ & Hsimilar).
    exact (Hsimilar (Sample.env None true) (Sample.ann "")
             ["Coldplay"; "-"; "Fix"; "You"] Sample.empty_world
             "Coldplay " " Fix You" SimilarNotFound
             eq_refl eq_refl eq_refl eq_refl eq_refl).
Defined.

(** C2. The claim asks that every well-formed [/similar] increment the
    user's counter once and run the promotional check once. When the user has
    no row (the [/similar] flow, unlike [message_handler], never creates one)
    the handler ends in an exception instead: there is still no row, hence
    no counter, and the promotional check has not run. *)
Theorem similar_command_unknown_user_not_counted E u args w :
  PyStr.contains_char PyStr.dash (PyStr.join " " args) = true ->
  users (db w) !! user_id u = None ->
  exists e w',
    similar_command E u args w = (Raise e, w')
    /\ get_user (user_id u) (db w') = None
    /\ ad_checks (trace w') = ad_checks (trace w).
Proof.
  intros Hdash Hrow.
  destruct (split_first_contains _ _ Hdash) as (artist & track & Hsplit).
  assert (Hsplit1 : PyStr.split1 PyStr.dash (PyStr.join " " args) = [artist; track]).
  { unfold PyStr.split1. rewrite Hsplit. reflexivity. }
  rewrite (similar_command_well_formed _ _ _ _ _ Hsplit1).
  unfold bind, reply_text, lift, call_db, get_user.
  destruct (similar_listing E (PyStr.strip artist) (PyStr.strip track) _)
    as [text|e]; simpl.
  - rewrite (increment_interaction_absent _ _ Hrow).
    eexists _, _. split; [reflexivity |]. simpl. split; [exact Hrow |].
    rewrite !ad_checks_app. simpl. rewrite !app_nil_r. reflexivity.
  - eexists _, _. split; [reflexivity |]. simpl. split; [exact Hrow |].
    rewrite !ad_checks_app. simpl. rewrite !app_nil_r. reflexivity.
Qed.

Lemma similar_command_unknown_user_not_counted_witness :
  exists e w',
    similar_command (Sample.env None true) (Sample.ann "")
      ["Coldplay"; "-"; "Fix"; "You"] Sample.empty_world = (Raise e, w')
    /\ get_user 7 (db w') = None
    /\ ad_checks (trace w') = ad_checks (trace Sample.empty_world).
Proof.
  apply (similar_command_unknown_user_not_counted (Sample.env None true)
           (Sample.ann "") ["Coldplay"; "-"; "Fix"; "You"] Sample.empty_world);
    reflexivity.
Defined.

(** ** The free-text flow, phase by phase *)

Ltac run_monad :=
  unfold bind, ret, lift, reply_text, query_db, update_db, call_db,
    try_except, path_exists, open_rb, os_remove, reply_audio,
    set_db, set_files, log; simpl.

Lemma world_eta w : {| db := db w; files := files w; trace := trace w |} = w.
Proof. destruct w; reflexivity. Qed.

Lemma create_user_lookup u d :
  users (create_user (user_id u) (display_name u) d) !! user_id u
  = Some (row_of u d).
Proof.
  unfold create_user, row_of.
  destruct (users d !! user_id u) eqn:Hrow; simpl.
  - exact Hrow.
  - apply lookup_insert_eq.
Qed.

Lemma create_user_downloads user_id name d :
  downloads (create_user user_id name d) = downloads d.
Proof. unfold create_user. destruct (users d !! user_id); reflexivity. Qed.

(** The row is found or created, and its mode read. *)
Lemma resolve_mode_run u w :
  resolve_mode u w
  = (Ret (mode (row_of u (db w))),
     set_db (create_user (user_id u) (display_name u) (db w)) w).
Proof.
  unfold resolve_mode, row_of, create_user. run_monad. unfold get_user.
  destruct (users (db w) !! user_id u) eqn:Hrow; simpl.
  - rewrite world_eta. reflexivity.
  - rewrite Hrow. simpl. rewrite lookup_insert_eq. reflexivity.
Qed.

(** The search phase only replies. *)
Lemma choose_download_query_frame E mode query w :
  exists o rs,
    choose_download_query E mode query w
    = (o, {| db := db w; files := files w;
             trace := trace w ++ map Replied rs |}).
Proof.
  unfold choose_download_query.
  destruct (String.eqb mode "advanced").
  - destruct (Py.truthy (search_track E query 5)).
    + run_monad. destruct (search_listing E _) as [text|e]; simpl.
      * exists (first_result_query E (search_track E query 5)), [text].
        destruct (first_result_query E _); reflexivity.
      * exists (Raise e), []. simpl. rewrite app_nil_r, world_eta. reflexivity.
    + exists (Ret query), []. unfold ret. simpl.
      rewrite app_nil_r, world_eta. reflexivity.
  - exists (Ret query), []. unfold ret. simpl.
    rewrite app_nil_r, world_eta. reflexivity.
Qed.

Lemma choose_download_query_basic E mode query w :
  mode <> "advanced" ->
  choose_download_query E mode query w = (Ret query, w).
Proof.
  intros Hmode. unfold choose_download_query.
  destruct (String.eqb_spec mode "advanced"); [contradiction | reflexivity].
Qed.

Lemma truthy_mp3 base : PyStr.truthy (base +:+ ".mp3") = true.
Proof. destruct base; reflexivity. Qed.

(** The acquisition records its query, may change the files, and returns a
    non-empty path or nothing. *)
Lemma download_audio_run E query w :
  exists file_path present,
    download_audio E query w
    = (Ret file_path,
       {| db := db w; files := present; trace := trace w ++ [Acquired query] |})
    /\ (forall path, file_path = Some path -> PyStr.truthy path = true).
Proof.
  unfold download_audio.
  destruct (ydl_run E _ (files w)) as [[filename|] present];
    eexists _, present; (split; [reflexivity |]); intros path Hpath;
    [injection Hpath as <-; apply truthy_mp3 | discriminate].
Qed.

(** The promotional check always returns, having recorded the check and
    sent at most the advertisement. *)
Lemma show_ad_run E count w :
  show_ad E count w
  = (Ret tt,
     {| db := db w; files := files w;
        trace := trace w ++ AdChecked count ::
                   (if should_show_ad count then [Replied (random_ad E)] else []) |}).
Proof.
  unfold show_ad. destruct (should_show_ad count); run_monad;
    rewrite <- ?app_assoc; reflexivity.
Qed.

(** Delivery when nothing usable was acquired. *)
Lemma deliver_not_acquired E user_id download_query file_path w :
  (file_path = None \/ exists path, file_path = Some path /\ path ∉ files w) ->
  deliver E user_id download_query file_path w
  = (Ret tt, log (Replied DownloadFailed) w).
Proof.
  intros [-> | (path & -> & Hpath)]; unfold deliver, acquired; run_monad.
  - reflexivity.
  - destruct (PyStr.truthy path); run_monad; [| reflexivity].
    rewrite bool_decide_eq_false_2 by exact Hpath. reflexivity.
Qed.

(** Delivery when the file is there and the send goes through. *)
Lemma deliver_sent E user_id download_query path w :
  PyStr.truthy path = true ->
  path ∈ files w ->
  reply_audio_ok E path download_query = true ->
  deliver E user_id download_query (Some path) w
  = (Ret tt,
     {| db := add_download user_id (history_title download_query)
                (history_artist download_query) (db w);
        files := files w ∖ {[path]};
        trace := trace w ++ [AudioSent path download_query "MelodyForge" true] |}).
Proof.
  intros Htruthy Hpath Hsend. unfold deliver, acquired. rewrite Htruthy.
  run_monad. rewrite !bool_decide_eq_true_2 by exact Hpath. simpl.
  rewrite Hsend. simpl. rewrite ?bool_decide_eq_true_2 by exact Hpath.
  reflexivity.
Qed.

(** Delivery when the file is there and the send raises. *)
Lemma deliver_send_failed E user_id download_query path w :
  PyStr.truthy path = true ->
  path ∈ files w ->
  reply_audio_ok E path download_query = false ->
  deliver E user_id download_query (Some path) w
  = (Ret tt,
     {| db := db w; files := files w;
        trace := trace w ++ [AudioSent path download_query "MelodyForge" false;
                             Replied SendError] |}).
Proof.
  intros Htruthy Hpath Hsend. unfold deliver, acquired. rewrite Htruthy.
  run_monad. rewrite !bool_decide_eq_true_2 by exact Hpath. simpl.
  rewrite Hsend. simpl. rewrite <- app_assoc. reflexivity.
Qed.

Lemma acquisitions_app t1 t2 :
  acquisitions (t1 ++ t2) = acquisitions t1 ++ acquisitions t2.
Proof. apply flat_map_app. Qed.

Lemma audio_sends_app t1 t2 :
  audio_sends (t1 ++ t2) = audio_sends t1 ++ audio_sends t2.
Proof. apply flat_map_app. Qed.

Lemma replied_only rs :
  acquisitions (map Replied rs) = []
  /\ audio_sends (map Replied rs) = []
  /\ ad_checks (map Replied rs) = [].
Proof. induction rs; simpl; auto. Qed.

(** The counter after [message_handler]'s increment. *)
Lemma counted_users u d :
  alter bump (user_id u) (users (create_user (user_id u) (display_name u) d))
  = <[user_id u := bump (row_of u d)]> (users d).
Proof.
  apply map_eq. intros k.
  rewrite lookup_alter, lookup_insert. case_decide as Hk.
  - subst k. rewrite create_user_lookup. reflexivity.
  - unfold create_user. destruct (users d !! user_id u); simpl; [reflexivity |].
    rewrite lookup_insert_ne by exact Hk. reflexivity.
Qed.

(** [acquire] after its two store steps, which cannot fail. *)
Lemma acquire_unfold E u w :
  acquire E u w
  = (download_query <- choose_download_query E (mode (row_of u (db w))) (text u) ;;
     reply_text Downloading ;;;
     file_path <- download_audio E download_query ;;
     ret ((interaction_count (row_of u (db w)) + 1)%Z, download_query, file_path))
      {| db := {| users := <[user_id u := bump (row_of u (db w))]> (users (db w));
                  downloads := downloads (db w) |};
         files := files w;
         trace := trace w ++ [Replied SearchingMusic] |}.
Proof.
  unfold acquire. unfold bind at 1. rewrite resolve_mode_run.
  unfold bind at 1. unfold call_db. simpl.
  rewrite (increment_interaction_present _ _ _ (create_user_lookup u (db w))).
  unfold bind at 1. unfold reply_text, set_db, log, set_users. simpl.
  rewrite counted_users, create_user_downloads. reflexivity.
Qed.

(** What is known once [acquire] has returned. *)
Lemma acquire_inv E u w count download_query file_path w1 :
  acquire E u w = (Ret (count, download_query, file_path), w1) ->
  count = (interaction_count (row_of u (db w)) + 1)%Z
  /\ users (db w1) = <[user_id u := bump (row_of u (db w))]> (users (db w))
  /\ downloads (db w1) = downloads (db w)
  /\ (exists rs,
        trace w1 = trace w ++ Replied SearchingMusic :: map Replied rs
                     ++ [Replied Downloading; Acquired download_query])
  /\ (forall path, file_path = Some path -> PyStr.truthy path = true)
  /\ (mode (row_of u (db w)) <> "advanced" -> download_query = text u).
Proof.
  rewrite acquire_unfold. unfold bind at 1.
  set (w0 := {| db := _; files := files w; trace := _ |}).
  destruct (choose_download_query_frame E (mode (row_of u (db w))) (text u) w0)
    as (o & rs & Hchoose).
  assert (Hbasic : mode (row_of u (db w)) <> "advanced" -> o = Ret (text u)).
  { intros Hmode. rewrite (choose_download_query_basic _ _ _ _ Hmode) in Hchoose.
    congruence. }
  rewrite Hchoose. destruct o as [dq|e]; [| discriminate].
  unfold bind at 1. unfold reply_text. unfold bind at 1.
  destruct (download_audio_run E dq (log (Replied Downloading)
              {| db := db w0; files := files w0;
                 trace := trace w0 ++ map Replied rs |}))
    as (fp & present & Hdl & Htruthy).
  rewrite Hdl. unfold ret. intros Heq. injection Heq as <- <- <- <-.
  simpl. repeat split; auto.
  - exists rs. rewrite <- !app_assoc. reflexivity.
  - intros Hmode. specialize (Hbasic Hmode). congruence.
Qed.

(** Delivery always returns; it touches neither the users nor the
    acquisitions nor the promotional checks. *)
Lemma deliver_total E user_id download_query file_path w :
  exists w',
    deliver E user_id download_query file_path w = (Ret tt, w')
    /\ users (db w') = users (db w)
    /\ acquisitions (trace w') = acquisitions (trace w)
    /\ ad_checks (trace w') = ad_checks (trace w).
Proof.
  destruct file_path as [path|].
  - destruct (PyStr.truthy path) eqn:Htruthy.
    + destruct (decide (path ∈ files w)) as [Hin|Hout].
      * destruct (reply_audio_ok E path download_query) eqn:Hsend.
        -- rewrite (deliver_sent _ _ _ _ _ Htruthy Hin Hsend).
           eexists. split; [reflexivity |]. simpl.
           rewrite acquisitions_app, ad_checks_app. simpl.
           rewrite !app_nil_r. auto.
        -- rewrite (deliver_send_failed _ _ _ _ _ Htruthy Hin Hsend).
           eexists. split; [reflexivity |]. simpl.
           rewrite acquisitions_app, ad_checks_app. simpl.
           rewrite !app_nil_r. auto.
      * rewrite deliver_not_acquired by eauto.
        eexists. split; [reflexivity |]. simpl.
        rewrite acquisitions_app, ad_checks_app. simpl.
        rewrite !app_nil_r. auto.
    + unfold deliver, acquired. rewrite Htruthy. run_monad.
      eexists. split; [reflexivity |]. simpl.
      rewrite acquisitions_app, ad_checks_app. simpl.
      rewrite !app_nil_r. auto.
  - rewrite deliver_not_acquired by auto.
    eexists. split; [reflexivity |]. simpl.
    rewrite acquisitions_app, ad_checks_app. simpl.
    rewrite !app_nil_r. auto.
Qed.

(** [message_handler] from the acquisition on. *)
Lemma message_handler_after_acquire E u w count download_query file_path w1 :
  acquire E u w = (Ret (count, download_query, file_path), w1) ->
  message_handler E u w
  = (deliver E (user_id u) download_query file_path ;;; show_ad E count) w1.
Proof.
  intros Hacq. unfold message_handler. unfold bind at 1. rewrite Hacq.
  reflexivity.
Qed.

(** ** The split rule of the history *)

Lemma split_first_at c a t :
  PyStr.contains_char c a = false ->
  PyStr.split_first c (a +:+ String c t) = Some (a, t).
Proof.
  induction a as [|x a IH]; simpl.
  - rewrite Ascii.eqb_refl. reflexivity.
  - destruct (Ascii.eqb x c); [discriminate |].
    intros H. rewrite (IH H). reflexivity.
Qed.

Lemma split_first_none c s :
  PyStr.contains_char c s = false -> PyStr.split_first c s = None.
Proof.
  induction s as [|x s IH]; simpl; [reflexivity |].
  destruct (Ascii.eqb x c); [discriminate |].
  intros H. rewrite (IH H). reflexivity.
Qed.

(** A query with a space: what precedes the first space is the artist and
    what follows it the title. *)
Lemma history_split artist title :
  PyStr.contains_char PyStr.space artist = false ->
  history_artist (artist +:+ " " +:+ title) = artist
  /\ history_title (artist +:+ " " +:+ title) = title.
Proof.
  intros H. unfold history_artist, history_title, PyStr.split1.
  change (artist +:+ " " +:+ title) with (artist +:+ String PyStr.space title).
  rewrite (split_first_at _ _ _ H). split; reflexivity.
Qed.

(** A query without a space is both the artist and the title. *)
Lemma history_whole download_query :
  PyStr.contains_char PyStr.space download_query = false ->
  history_artist download_query = download_query
  /\ history_title download_query = download_query.
Proof.
  intros H. unfold history_artist, history_title, PyStr.split1.
  rewrite (split_first_none _ _ H). split; reflexivity.
Qed.

(** ** The free-text flow, end to end *)

(** With a path at which a file exists, the delivery is attempted. *)
Lemma delivery_attempted E u w count download_query path w1 :
  acquire E u w = (Ret (count, download_query, Some path), w1) ->
  path ∈ files w1 ->
  audio_sends (trace (snd (message_handler E u w)))
  = audio_sends (trace w)
    ++ [(path, download_query, reply_audio_ok E path download_query)].
Proof.
  intros Hacq Hin.
  destruct (acquire_inv _ _ _ _ _ _ _ Hacq)
    as (_ & _ & _ & (rs & Htrace) & Htruthy & _).
  rewrite (message_handler_after_acquire _ _ _ _ _ _ _ Hacq).
  unfold bind.
  destruct (reply_audio_ok E path download_query) eqn:Hsend.
  - rewrite (deliver_sent _ _ _ _ _ (Htruthy _ eq_refl) Hin Hsend).
    rewrite show_ad_run. simpl. rewrite Htrace, !audio_sends_app. simpl.
    rewrite !audio_sends_app, (proj1 (proj2 (replied_only rs))).
    destruct (should_show_ad count); simpl; rewrite ?app_nil_r; reflexivity.
  - rewrite (deliver_send_failed _ _ _ _ _ (Htruthy _ eq_refl) Hin Hsend).
    rewrite show_ad_run. simpl. rewrite Htrace, !audio_sends_app. simpl.
    rewrite !audio_sends_app, (proj1 (proj2 (replied_only rs))).
    destruct (should_show_ad count); simpl; rewrite ?app_nil_r; reflexivity.
Qed.

(** C10. The delivery is attempted only when [download_audio] returned a
    path and a file exists there. When it returns a path at which no file
    exists, [message_handler] goes on exactly as when it returns nothing: it
    sends the download-failed text, then runs the promotional check; no audio
    is sent, no download is recorded and the files are left as they are. *)
Theorem missing_file_is_acquisition_failure
  E u w count download_query file_path w1 :
  acquire E u w = (Ret (count, download_query, file_path), w1) ->
  ((file_path = None \/ exists path, file_path = Some path /\ path ∉ files w1) ->
   message_handler E u w = show_ad E count (log (Replied DownloadFailed) w1)
   /\ exists w',
        message_handler E u w = (Ret tt, w')
        /\ trace w' = trace w1 ++ Replied DownloadFailed :: AdChecked count ::
                        (if should_show_ad count then [Replied (random_ad E)] else [])
        /\ audio_sends (trace w') = audio_sends (trace w)
        /\ downloads (db w') = downloads (db w)
        /\ files w' = files w1)
  /\ (forall path,
        file_path = Some path -> path ∈ files w1 ->
        audio_sends (trace (snd (message_handler E u w)))
        = audio_sends (trace w)
          ++ [(path, download_query, reply_audio_ok E path download_query)]).
Proof.
  intros Hacq. split.
  - intros Hmissing.
    destruct (acquire_inv _ _ _ _ _ _ _ Hacq)
      as (_ & _ & Hdl & (rs & Htrace) & _ & _).
    rewrite (message_handler_after_acquire _ _ _ _ _ _ _ Hacq).
    unfold bind. rewrite (deliver_not_acquired _ _ _ _ _ Hmissing).
    split; [reflexivity |].
    rewrite show_ad_run. eexists. split; [reflexivity |]. simpl.
    split; [rewrite <- app_assoc; reflexivity |].
    split; [| split; [exact Hdl | reflexivity]].
    rewrite Htrace. rewrite !audio_sends_app. simpl.
    rewrite audio_sends_app. rewrite (proj1 (proj2 (replied_only rs))).
    destruct (should_show_ad count); simpl; rewrite !app_nil_r; reflexivity.
  - intros path -> Hin. exact (delivery_attempted _ _ _ _ _ _ _ Hacq Hin).
Qed.

Lemma missing_file_is_acquisition_failure_witness :
  let E := Sample.env_missing_file in
  let u := Sample.ann "Imagine Dragons Believer" in
  let w := Sample.known_world false in
  let w1 := {| db := {| users := <[7%Z := bump (row_of u (db w))]> (users (db w));
                        downloads := [] |};
               files := ∅;
               trace := [Replied SearchingMusic; Replied Downloading;
                         Acquired "Imagine Dragons Believer"] |} in
  message_handler E u w = show_ad E 1 (log (Replied DownloadFailed) w1)
  /\ exists w',
       message_handler E u w = (Ret tt, w')
       /\ trace w' = trace w1 ++ Replied DownloadFailed :: AdChecked 1 ::
                       (if should_show_ad 1 then [Replied (random_ad E)] else [])
       /\ audio_sends (trace w') = audio_sends (trace w)
       /\ downloads (db w') = downloads (db w)
       /\ files w' = files w1.
Proof.
  intros E u w w1.
  refine (proj1 (missing_file_is_acquisition_failure E u w 1
                   "Imagine Dragons Believer" (Some "/tmp/song.mp3") w1 _) _).
  - vm_compute. reflexivity.
  - right. exists "/tmp/song.mp3". split; [reflexivity | apply not_elem_of_empty].
Defined.

(** C3. The claim asks that the artifact be removed whether the send
    succeeds or raises. [message_handler] removes it only after a successful
    send and history write: when [reply_audio] raises, control goes to the
    handler of the exception, which reports the error, and the file is still
    there when [message_handler] returns. *)
Theorem failed_send_leaves_file E u w count download_query path w1 :
  acquire E u w = (Ret (count, download_query, Some path), w1) ->
  path ∈ files w1 ->
  reply_audio_ok E path download_query = false ->
  exists w',
    message_handler E u w = (Ret tt, w')
    /\ audio_sends (trace w')
       = audio_sends (trace w) ++ [(path, download_query, false)]
    /\ path ∈ files w'.
Proof.
  intros Hacq Hin Hsend.
  destruct (acquire_inv _ _ _ _ _ _ _ Hacq)
    as (_ & _ & _ & (rs & Htrace) & Htruthy & _).
  rewrite (message_handler_after_acquire _ _ _ _ _ _ _ Hacq).
  unfold bind.
  rewrite (deliver_send_failed _ _ _ _ _ (Htruthy _ eq_refl) Hin Hsend).
  rewrite show_ad_run. eexists. split; [reflexivity |]. simpl.
  split; [| exact Hin].
  rewrite Htrace. rewrite !audio_sends_app. simpl.
  rewrite !audio_sends_app. rewrite (proj1 (proj2 (replied_only rs))).
  destruct (should_show_ad count); simpl; rewrite ?app_nil_r; reflexivity.
Qed.

Lemma failed_send_leaves_file_witness :
  let E := Sample.env None false in
  let u := Sample.ann "Imagine Dragons Believer" in
  let w := Sample.known_world false in
  exists w',
    message_handler E u w = (Ret tt, w')
    /\ audio_sends (trace w')
       = audio_sends (trace w)
         ++ [("/tmp/song.mp3", "Imagine Dragons Believer", false)]
    /\ "/tmp/song.mp3" ∈ files w'.
Proof.
  intros E u w.
  apply (failed_send_leaves_file E u w 1 "Imagine Dragons Believer"
           "/tmp/song.mp3"
           {| db := {| users := <[7%Z := bump (row_of u (db w))]> (users (db w));
                       downloads := [] |};
              files := {["/tmp/song.mp3"]} ∪ ∅;
              trace := [Replied SearchingMusic; Replied Downloading;
                        Acquired "Imagine Dragons Believer"] |}).
  - vm_compute. reflexivity.
  - simpl. apply elem_of_union_l, elem_of_singleton. reflexivity.
  - reflexivity.
Defined.

(** After a successful send the file is removed. *)
Lemma successful_send_removes_file E u w count download_query path w1 :
  acquire E u w = (Ret (count, download_query, Some path), w1) ->
  path ∈ files w1 ->
  reply_audio_ok E path download_query = true ->
  exists w', message_handler E u w = (Ret tt, w') /\ path ∉ files w'.
Proof.
  intros Hacq Hin Hsend.
  destruct (acquire_inv _ _ _ _ _ _ _ Hacq) as (_ & _ & _ & _ & Htruthy & _).
  rewrite (message_handler_after_acquire _ _ _ _ _ _ _ Hacq).
  unfold bind.
  rewrite (deliver_sent _ _ _ _ _ (Htruthy _ eq_refl) Hin Hsend).
  rewrite show_ad_run. eexists. split; [reflexivity |]. simpl.
  rewrite elem_of_difference, elem_of_singleton. tauto.
Qed.

(** The rule of the history as the specification words it: the first
    whitespace-separated token of the query is the artist and the remainder
    the title, the artist being "Unknown" when there is no token and the
    title the whole query when nothing remains. *)
Fixpoint first_token (s : string) : string :=
  match s with
  | EmptyString => EmptyString
  | String a s' => if PyStr.isspace a then EmptyString else String a (first_token s')
  end.

Fixpoint after_first_token (s : string) : string :=
  match s with
  | EmptyString => EmptyString
  | String a s' => if PyStr.isspace a then s else after_first_token s'
  end.

Definition claimed_artist (download_query : string) : string :=
  let token := first_token (PyStr.lstrip download_query) in
  if PyStr.truthy token then token else "Unknown".

Definition claimed_title (download_query : string) : string :=
  let remainder :=
    PyStr.lstrip (after_first_token (PyStr.lstrip download_query)) in
  if PyStr.truthy remainder then remainder else download_query.

(** A message in which a tab, not a space, follows the first word. *)
Definition tabbed_query : string :=
  "Imagine" +:+ String "009"%char "Dragons Believer".

(** The claim of C7 as stated fails: the code splits at the first space and
    at no other whitespace. For the query [tabbed_query] the first
    whitespace-separated token is "Imagine", but the record stored after a
    successful delivery has the artist "Imagine<TAB>Dragons" and the title
    "Believer". *)
Lemma download_record_not_whitespace_split :
  ~ (forall E u w count download_query path w1,
       acquire E u w = (Ret (count, download_query, Some path), w1) ->
       path ∈ files w1 ->
       reply_audio_ok E path download_query = true ->
       downloads (db (snd (message_handler E u w)))
       = downloads (db w)
         ++ [ {| dl_user_id := user_id u;
                 dl_track_name := claimed_title download_query;
                 dl_artist := claimed_artist download_query |} ]).
Proof.
  intros H.
  specialize (H (Sample.env None true) (Sample.ann tabbed_query)
                (Sample.known_world false) 1%Z tabbed_query "/tmp/song.mp3"
                {| db := {| users := <[7%Z := bump (row_of (Sample.ann tabbed_query)
                                                     (db (Sample.known_world false)))]>
                                       (users (db (Sample.known_world false)));
                            downloads := [] |};
                   files := {["/tmp/song.mp3"]} ∪ ∅;
                   trace := [Replied SearchingMusic; Replied Downloading;
                             Acquired tabbed_query] |}).
  assert (Hrecord : downloads (db (snd (message_handler (Sample.env None true)
                                          (Sample.ann tabbed_query)
                                          (Sample.known_world false))))
                    = [ {| dl_user_id := 7;
                           dl_track_name := "Believer";
                           dl_artist := "Imagine" +:+ String "009"%char "Dragons" |} ]).
  { vm_compute. reflexivity. }
  rewrite Hrecord in H.
  assert (Hclaimed : claimed_artist tabbed_query = "Imagine"
                     /\ claimed_title tabbed_query = "Dragons Believer").
  { split; vm_compute; reflexivity. }
  destruct Hclaimed as [Hartist Htitle]. rewrite Hartist, Htitle in H.
  specialize (H ltac:(vm_compute; reflexivity)
                ltac:(simpl; apply elem_of_union_l, elem_of_singleton; reflexivity)
                eq_refl).
  discriminate H.
Qed.

(** C7, amended. On a successful delivery one download record is added, for
    the user, whose artist and title come from the download query by the
    split at its first space character, other whitespace not separating:
    what precedes that space is the artist and what follows it the title,
    and a query without a space is stored whole as both. The split always
    has a first part, so the artist is never the default "Unknown". In basic
    mode the query handed to the acquirer is the user's text itself. *)
Theorem download_record_split_rule E u w count download_query path w1 :
  acquire E u w = (Ret (count, download_query, Some path), w1) ->
  path ∈ files w1 ->
  reply_audio_ok E path download_query = true ->
  exists w',
    message_handler E u w = (Ret tt, w')
    /\ audio_sends (trace w')
       = audio_sends (trace w) ++ [(path, download_query, true)]
    /\ acquisitions (trace w') = acquisitions (trace w) ++ [download_query]
    /\ downloads (db w')
       = downloads (db w)
         ++ [ {| dl_user_id := user_id u;
                 dl_track_name :=
                   default download_query
                     (PyStr.split1 PyStr.space download_query !! 1%nat);
                 dl_artist :=
                   default "Unknown"
                     (PyStr.split1 PyStr.space download_query !! 0%nat) |} ]
    /\ is_Some (PyStr.split1 PyStr.space download_query !! 0%nat)
    /\ (forall artist title,
          PyStr.contains_char PyStr.space artist = false ->
          download_query = artist +:+ " " +:+ title ->
          default "Unknown" (PyStr.split1 PyStr.space download_query !! 0%nat) = artist
          /\ default download_query
               (PyStr.split1 PyStr.space download_query !! 1%nat) = title)
    /\ (PyStr.contains_char PyStr.space download_query = false ->
        default "Unknown" (PyStr.split1 PyStr.space download_query !! 0%nat)
        = download_query
        /\ default download_query
             (PyStr.split1 PyStr.space download_query !! 1%nat)
           = download_query)
    /\ (mode (row_of u (db w)) <> "advanced" -> download_query = text u).
Proof.
  intros Hacq Hin Hsend.
  destruct (acquire_inv _ _ _ _ _ _ _ Hacq)
    as (_ & _ & Hdl & (rs & Htrace) & Htruthy & Hbasic).
  rewrite (message_handler_after_acquire _ _ _ _ _ _ _ Hacq).
  unfold bind.
  rewrite (deliver_sent _ _ _ _ _ (Htruthy _ eq_refl) Hin Hsend).
  rewrite show_ad_run. eexists. split; [reflexivity |]. simpl.
  destruct (replied_only rs) as (Hacqs & Hsends & _).
  split; [| split; [| split; [| split; [| split; [| split]]]]].
  - rewrite Htrace. rewrite !audio_sends_app. simpl.
    rewrite !audio_sends_app, Hsends.
    destruct (should_show_ad count); simpl; rewrite ?app_nil_r; reflexivity.
  - rewrite Htrace. rewrite !acquisitions_app. simpl.
    rewrite !acquisitions_app, Hacqs.
    destruct (should_show_ad count); simpl; rewrite ?app_nil_r; reflexivity.
  - rewrite Hdl. reflexivity.
  - unfold PyStr.split1.
    destruct (PyStr.split_first PyStr.space download_query) as [[l r]|];
      simpl; eauto.
  - intros artist title Hartist ->. apply (history_split artist title Hartist).
  - apply (history_whole download_query).
  - exact Hbasic.
Qed.

Lemma download_record_split_rule_witness :
  let E := Sample.env None true in
  let u := Sample.ann "Imagine Dragons Believer" in
  let w := Sample.known_world false in
  exists w',
    message_handler E u w = (Ret tt, w')
    /\ acquisitions (trace w') = ["Imagine Dragons Believer"]
    /\ downloads (db w')
       = [ {| dl_user_id := 7; dl_track_name := "Dragons Believer";
              dl_artist := "Imagine" |} ].
Proof.
  intros E u w.
  destruct (download_record_split_rule E u w 1 "Imagine Dragons Believer"
              "/tmp/song.mp3"
              {| db := {| users := <[7%Z := bump (row_of u (db w))]> (users (db w));
                          downloads := [] |};
                 files := {["/tmp/song.mp3"]} ∪ ∅;
                 trace := [Replied SearchingMusic; Replied Downloading;
                           Acquired "Imagine Dragons Believer"] |})
    as (w' & Hrun & _ & Hacqs & Hrecord & _).
  - vm_compute. reflexivity.
  - simpl. apply elem_of_union_l, elem_of_singleton. reflexivity.
  - reflexivity.
  - exists w'. split; [exact Hrun | split; [exact Hacqs | exact Hrecord]].
Defined.

(** ** The search phase *)

(** The listing of a sequence of objects can always be built. *)
Lemma result_lines_of_objects E tracks :
  Forall (fun t => Py.is_dict t = true) tracks ->
  exists lines, omap (result_line E) tracks = Ret lines.
Proof.
  induction 1 as [|t tracks Ht _ (lines & IH)]; simpl; [eauto |].
  destruct t; try discriminate. simpl. rewrite IH. simpl. eauto.
Qed.

(** Whatever the delivery does, [message_handler] hands to the acquirer the
    query that [acquire] chose, and nothing else. *)
Lemma message_handler_acquisitions E u w count download_query file_path w1 :
  acquire E u w = (Ret (count, download_query, file_path), w1) ->
  acquisitions (trace (snd (message_handler E u w)))
  = acquisitions (trace w) ++ [download_query].
Proof.
  intros Hacq.
  destruct (acquire_inv _ _ _ _ _ _ _ Hacq) as (_ & _ & _ & (rs & Htrace) & _).
  rewrite (message_handler_after_acquire _ _ _ _ _ _ _ Hacq).
  unfold bind.
  destruct (deliver_total E (user_id u) download_query file_path w1)
    as (w2 & -> & _ & Hacqs & _).
  rewrite show_ad_run. simpl. rewrite acquisitions_app, Hacqs, Htrace.
  rewrite !acquisitions_app. simpl. rewrite acquisitions_app.
  rewrite (proj1 (replied_only rs)).
  destruct (should_show_ad count); simpl; rewrite ?app_nil_r; reflexivity.
Qed.

(** When the search phase returns a query, [acquire] returns with it. *)
Lemma acquire_returns E u w download_query w2 :
  choose_download_query E (mode (row_of u (db w))) (text u)
    {| db := {| users := <[user_id u := bump (row_of u (db w))]> (users (db w));
                downloads := downloads (db w) |};
       files := files w;
       trace := trace w ++ [Replied SearchingMusic] |}
  = (Ret download_query, w2) ->
  exists file_path w1,
    acquire E u w
    = (Ret ((interaction_count (row_of u (db w)) + 1)%Z, download_query, file_path),
       w1).
Proof.
  intros Hchoose. rewrite acquire_unfold. unfold bind at 1. rewrite Hchoose.
  unfold bind at 1. unfold reply_text. unfold bind at 1.
  destruct (download_audio_run E download_query (log (Replied Downloading) w2))
    as (fp & present & -> & _).
  eexists _, _. reflexivity.
Qed.

(** C5. For a user whose row says advanced mode: when the search returns a
    non-empty sequence of results whose first has the artist [artist] and the
    title [title], the one query handed to the acquirer is [artist], a space,
    [title]; when the search returns nothing (an empty sequence, or any
    other value that counts as false), it is the text of the message. *)
Theorem advanced_mode_download_query E u w row :
  users (db w) !! user_id u = Some row ->
  mode row = "advanced" ->
  (forall top rest artist title,
     search_track E (text u) 5 = JList (JDict top :: rest) ->
     Forall (fun t => Py.is_dict t = true) rest ->
     Py.assoc "artist" top = Some (JStr artist) ->
     Py.assoc "name" top = Some (JStr title) ->
     renders_strings E ->
     acquisitions (trace (snd (message_handler E u w)))
     = acquisitions (trace w) ++ [artist +:+ " " +:+ title])
  /\ (Py.truthy (search_track E (text u) 5) = false ->
      acquisitions (trace (snd (message_handler E u w)))
      = acquisitions (trace w) ++ [text u]).
Proof.
  intros Hrow Hmode.
  assert (Hadv : mode (row_of u (db w)) = "advanced").
  { unfold row_of. rewrite Hrow. exact Hmode. }
  split.
  - intros top rest artist title Hsearch Hrest Hartist Hname Hstr.
    destruct (result_lines_of_objects E (JDict top :: rest)) as (lines & Hlines).
    { constructor; [reflexivity | exact Hrest]. }
    edestruct (acquire_returns E u w (artist +:+ " " +:+ title))
      as (fp & w1 & Hacq).
    { unfold choose_download_query. rewrite Hadv, Hsearch. simpl.
      unfold search_listing, first_result_query. simpl Py.iter. simpl Py.first.
      unfold obind at 1. rewrite Hlines. run_monad.
      rewrite Hartist, Hname, !Hstr. reflexivity. }
    exact (message_handler_acquisitions _ _ _ _ _ _ _ Hacq).
  - intros Hempty.
    edestruct (acquire_returns E u w (text u)) as (fp & w1 & Hacq).
    { unfold choose_download_query. rewrite Hadv, Hempty. reflexivity. }
    exact (message_handler_acquisitions _ _ _ _ _ _ _ Hacq).
Qed.

Lemma advanced_mode_download_query_witness :
  acquisitions (trace (snd (message_handler
     (Sample.env (Some Sample.yesterday) true)
     (Sample.ann "Yesterday") (Sample.known_world true))))
  = ["The Beatles Yesterday"]
  /\ acquisitions (trace (snd (message_handler
       (Sample.env (Some (Sample.search_body (JList []))) true)
       (Sample.ann "Yesterday") (Sample.known_world true))))
     = ["Yesterday"].
Proof.
  split.
  - refine (proj1 (advanced_mode_download_query
             (Sample.env (Some Sample.yesterday) true)
             (Sample.ann "Yesterday") (Sample.known_world true)
             {| username := "Ann"; mode := "advanced"; interaction_count := 0 |}
             eq_refl eq_refl)
            [("name", JStr "Yesterday"); ("artist", JStr "The Beatles")]
            [Sample.track "Boyz II Men" "Yesterday"]
            "The Beatles" "Yesterday" eq_refl _ eq_refl eq_refl _).
    + repeat constructor.
    + intros s. reflexivity.
  - refine (proj2 (advanced_mode_download_query
             (Sample.env (Some (Sample.search_body (JList []))) true)
             (Sample.ann "Yesterday") (Sample.known_world true)
             {| username := "Ann"; mode := "advanced"; interaction_count := 0 |}
             eq_refl eq_refl) eq_refl).
Defined.

(** ** The counter and the promotional check in the free-text flow *)

(** However [acquire] ends, the user's counter has gone up by one. *)
Lemma acquire_counts E u w :
  users (db (snd (acquire E u w)))
  = <[user_id u := bump (row_of u (db w))]> (users (db w)).
Proof.
  rewrite acquire_unfold. unfold bind at 1.
  set (w0 := {| db := _; files := files w; trace := _ |}).
  destruct (choose_download_query_frame E (mode (row_of u (db w))) (text u) w0)
    as (o & rs & ->).
  destruct o as [dq|e]; [| reflexivity].
  unfold bind at 1. unfold reply_text. unfold bind at 1.
  destruct (download_audio_run E dq (log (Replied Downloading)
              {| db := db w0; files := files w0;
                 trace := trace w0 ++ map Replied rs |}))
    as (fp & present & -> & _).
  reflexivity.
Qed.

(** Every free-text message increments the user's counter exactly once,
    whatever the search, the acquisition and the delivery do. *)
Lemma message_handler_increments_once E u w :
  users (db (snd (message_handler E u w)))
  = <[user_id u := bump (row_of u (db w))]> (users (db w)).
Proof.
  rewrite <- (acquire_counts E). unfold message_handler. unfold bind at 1.
  destruct (acquire E u w) as [[[[count dq] fp]|e] w1]; [| reflexivity].
  unfold bind.
  destruct (deliver_total E (user_id u) dq fp w1) as (w2 & -> & Husers & _).
  rewrite show_ad_run. simpl. exact Husers.
Qed.

(** Once the acquisition has been made, whether it and the delivery succeed
    or not, [message_handler] returns and the promotional check has run
    exactly once, on the count after the increment. *)
Lemma message_handler_checks_once E u w count download_query file_path w1 :
  acquire E u w = (Ret (count, download_query, file_path), w1) ->
  exists w',
    message_handler E u w = (Ret tt, w')
    /\ ad_checks (trace w')
       = ad_checks (trace w) ++ [(interaction_count (row_of u (db w)) + 1)%Z].
Proof.
  intros Hacq.
  destruct (acquire_inv _ _ _ _ _ _ _ Hacq) as (-> & _ & _ & (rs & Htrace) & _).
  rewrite (message_handler_after_acquire _ _ _ _ _ _ _ Hacq).
  unfold bind.
  destruct (deliver_total E (user_id u) download_query file_path w1)
    as (w2 & -> & _ & _ & Hchecks).
  rewrite show_ad_run. eexists. split; [reflexivity |]. simpl.
  rewrite ad_checks_app, Hchecks, Htrace.
  rewrite !ad_checks_app. simpl. rewrite ad_checks_app.
  rewrite (proj2 (proj2 (replied_only rs))).
  destruct (should_show_ad _); simpl; rewrite ?app_nil_r; reflexivity.
Qed.

(** In basic mode the acquisition is always reached. *)
Lemma acquire_basic E u w :
  mode (row_of u (db w)) <> "advanced" ->
  exists file_path w1,
    acquire E u w
    = (Ret ((interaction_count (row_of u (db w)) + 1)%Z, text u, file_path), w1).
Proof.
  intros Hmode. eapply acquire_returns.
  apply choose_download_query_basic. exact Hmode.
Qed.

(** The search phase returns a query in basic mode, when the search found
    nothing, and when it found a sequence of objects. *)
Lemma choose_download_query_returns E mode query w :
  mode <> "advanced"
  \/ Py.truthy (search_track E query 5) = false
  \/ (exists l, search_track E query 5 = JList l
                /\ Forall (fun t => Py.is_dict t = true) l) ->
  exists download_query w2,
    choose_download_query E mode query w = (Ret download_query, w2).
Proof.
  intros [Hmode | Hsearch].
  - rewrite (choose_download_query_basic _ _ _ _ Hmode). eauto.
  - unfold choose_download_query.
    destruct (String.eqb mode "advanced"); [| unfold ret; eauto].
    destruct Hsearch as [-> | (l & -> & Hl)]; [unfold ret; eauto |].
    destruct l as [|top rest]; [unfold ret; simpl; eauto |].
    destruct (result_lines_of_objects E _ Hl) as (lines & Hlines).
    simpl. unfold search_listing, first_result_query.
    simpl Py.iter. simpl Py.first. unfold obind at 1. rewrite Hlines.
    inversion Hl as [|? ? Htop _]; subst.
    destruct top; try discriminate. run_monad. eauto.
Qed.

(** Every such free-text message returns with the user's counter incremented
    exactly once and the promotional check run exactly once, on the count
    after the increment, whatever the acquisition and the delivery do. *)
Lemma message_handler_counts_and_checks_once E u w :
  mode (row_of u (db w)) <> "advanced"
  \/ Py.truthy (search_track E (text u) 5) = false
  \/ (exists l, search_track E (text u) 5 = JList l
                /\ Forall (fun t => Py.is_dict t = true) l) ->
  exists w',
    message_handler E u w = (Ret tt, w')
    /\ users (db w') = <[user_id u := bump (row_of u (db w))]> (users (db w))
    /\ ad_checks (trace w')
       = ad_checks (trace w) ++ [(interaction_count (row_of u (db w)) + 1)%Z].
Proof.
  intros Hsearch.
  destruct (choose_download_query_returns E _ (text u)
              {| db := {| users := <[user_id u := bump (row_of u (db w))]> (users (db w));
                          downloads := downloads (db w) |};
                 files := files w;
                 trace := trace w ++ [Replied SearchingMusic] |} Hsearch)
    as (dq & w2 & Hchoose).
  destruct (acquire_returns _ _ _ _ _ Hchoose) as (fp & w1 & Hacq).
  destruct (message_handler_checks_once _ _ _ _ _ _ _ Hacq) as (w' & Hrun & Hchecks).
  exists w'. split; [exact Hrun | split; [| exact Hchecks]].
  rewrite <- (message_handler_increments_once E u w), Hrun. reflexivity.
Qed.

(** * Further properties *)

(** ** The store, operation by operation *)

(** X1. [create_user] is [INSERT OR IGNORE]: for an id that has a row it
    changes nothing (mode and counter are kept), for a fresh id it stores the
    name with mode ["basic"] and counter [0]; the other rows and the downloads
    are untouched, and creating twice is creating once. *)
Theorem create_user_insert_or_ignore id name d :
  (is_Some (get_user id d) -> create_user id name d = d)
  /\ (get_user id d = None ->
      get_user id (create_user id name d)
      = Some {| username := name; mode := "basic"; interaction_count := 0 |})
  /\ (forall other, other <> id ->
        get_user other (create_user id name d) = get_user other d)
  /\ downloads (create_user id name d) = downloads d
  /\ (forall name',
        create_user id name' (create_user id name d) = create_user id name d).
Proof.
  unfold get_user, create_user.
  destruct (users d !! id) as [row|] eqn:Hrow; simpl.
  - repeat split; try reflexivity.
    + intros H. discriminate.
    + intros name'. rewrite Hrow. reflexivity.
  - repeat split; try reflexivity.
    + intros [row Hsome]. discriminate.
    + intros _. apply lookup_insert_eq.
    + intros other Hother. apply lookup_insert_ne. congruence.
    + intros name'. rewrite lookup_insert_eq. reflexivity.
Qed.

(** X2. [update_mode] rewrites the mode of the user's row and nothing else:
    name and counter stay, other rows and the downloads stay; for an id
    without a row the [UPDATE] matches nothing and the store is unchanged, no
    row being created. *)
Theorem update_mode_sets_mode_only id new_mode d :
  (forall row, get_user id d = Some row ->
     get_user id (update_mode id new_mode d)
     = Some {| username := username row; mode := new_mode;
               interaction_count := interaction_count row |})
  /\ (get_user id d = None -> update_mode id new_mode d = d)
  /\ (forall other, other <> id ->
        get_user other (update_mode id new_mode d) = get_user other d)
  /\ downloads (update_mode id new_mode d) = downloads d.
Proof.
  unfold get_user, update_mode, set_users. simpl. repeat split.
  - intros row Hrow. rewrite lookup_alter_eq, Hrow. reflexivity.
  - intros Hrow. destruct d as [rows dl]. simpl in *. f_equal.
    apply map_eq. intros k. rewrite lookup_alter. case_decide; [| reflexivity].
    subst k. rewrite Hrow. reflexivity.
  - intros other Hother. apply lookup_alter_ne. congruence.
Qed.

Lemma update_mode_sets_mode_only_witness :
  get_user 7 (update_mode 7 "advanced" (db (Sample.known_world false)))
  = Some {| username := "Ann"; mode := "advanced"; interaction_count := 0 |}
  /\ update_mode 7 "advanced" (db Sample.empty_world) = db Sample.empty_world.
Proof.
  destruct (update_mode_sets_mode_only 7 "advanced" (db (Sample.known_world false)))
    as (Hpresent & _).
  destruct (update_mode_sets_mode_only 7 "advanced" (db Sample.empty_world))
    as (_ & Habsent & _).
  split.
  - exact (Hpresent {| username := "Ann"; mode := "basic"; interaction_count := 0 |}
             eq_refl).
  - exact (Habsent eq_refl).
Defined.

(** The store after [n] increments in a row. *)
Definition incremented (n : nat) (id : Z) (d : Database) : Database :=
  Nat.iter n (fun d => snd (increment_interaction id d)) d.

(** X3. Increments in a row are not lost: after [n] of them on a user that
    has a row, the row holds the old count plus [n], with name and mode as
    before, and the next increment returns the old count plus [n + 1]; every
    other row is as it was. *)
Theorem increment_interaction_n_times id d row n :
  get_user id d = Some row ->
  get_user id (incremented n id d)
  = Some {| username := username row; mode := mode row;
            interaction_count := interaction_count row + Z.of_nat n |}
  /\ fst (increment_interaction id (incremented n id d))
     = Ret (interaction_count row + Z.of_nat n + 1)%Z
  /\ (forall other, other <> id ->
        get_user other (incremented n id d) = get_user other d)
  /\ downloads (incremented n id d) = downloads d.
Proof.
  intros Hrow. unfold get_user in *.
  assert (Hn : users (incremented n id d) !! id
               = Some {| username := username row; mode := mode row;
                         interaction_count := interaction_count row + Z.of_nat n |}
               /\ (forall other, other <> id ->
                     users (incremented n id d) !! other = users d !! other)
               /\ downloads (incremented n id d) = downloads d).
  { induction n as [|n (IHrow & IHother & IHdl)].
    - simpl. rewrite Hrow, Z.add_0_r. destruct row. auto.
    - unfold incremented in *. simpl Nat.iter.
      rewrite (increment_interaction_present _ _ _ IHrow). simpl.
      repeat split.
      + rewrite lookup_alter_eq, IHrow. simpl. unfold bump. simpl.
        do 2 f_equal. lia.
      + intros other Hother. rewrite lookup_alter_ne by congruence. auto.
      + exact IHdl. }
  destruct Hn as (Hidrow & Hothers & Hdl).
  repeat split; auto.
  rewrite (increment_interaction_present _ _ _ Hidrow). reflexivity.
Qed.

Lemma increment_interaction_n_times_witness :
  get_user 7 (incremented 10 7 (db (Sample.known_world true)))
  = Some {| username := "Ann"; mode := "advanced"; interaction_count := 10 |}
  /\ fst (increment_interaction 7 (incremented 10 7 (db (Sample.known_world true))))
     = Ret 11%Z.
Proof.
  destruct (increment_interaction_n_times 7 (db (Sample.known_world true))
              {| username := "Ann"; mode := "advanced"; interaction_count := 0 |}
              10 eq_refl) as (Hrow & Hnext & _).
  split; [exact Hrow | exact Hnext].
Defined.

(** ** The download history *)

Definition newer_first (a b : Z * download_row) : Prop := (fst b <= fst a)%Z.
Definition older_first (a b : Z * download_row) : Prop := (fst a < fst b)%Z.

Lemma insert_desc_perm x l : insert_desc x l ≡ₚ x :: l.
Proof.
  induction l as [|y l IH]; simpl; [reflexivity |].
  destruct (fst y <? fst x)%Z; [reflexivity |].
  rewrite IH. apply Permutation_swap.
Qed.

Lemma order_desc_perm l : order_desc l ≡ₚ l.
Proof.
  induction l as [|x l IH]; simpl; [reflexivity |].
  rewrite insert_desc_perm, IH. reflexivity.
Qed.

Lemma insert_desc_sorted x l :
  StronglySorted newer_first l -> StronglySorted newer_first (insert_desc x l).
Proof.
  induction l as [|y l IH]; simpl; intros Hl.
  - repeat constructor.
  - apply StronglySorted_cons in Hl as [Hy Hl].
    destruct (Z.ltb_spec (fst y) (fst x)) as [Hlt|Hge].
    + apply StronglySorted_cons. split.
      * constructor; [unfold newer_first; lia |].
        eapply Forall_impl; [exact Hy |]. unfold newer_first. intros z. lia.
      * apply StronglySorted_cons. auto.
    + apply StronglySorted_cons. split; [| auto].
      rewrite (insert_desc_perm x l). constructor; [exact Hge | exact Hy].
Qed.

Lemma order_desc_sorted l : StronglySorted newer_first (order_desc l).
Proof.
  induction l as [|x l IH]; simpl; [constructor |].
  apply insert_desc_sorted, IH.
Qed.

(** Rows already in the order of their timestamps come out reversed. *)
Lemma order_desc_reverse l :
  StronglySorted older_first l -> order_desc l = reverse l.
Proof.
  induction l as [|x l IH]; [reflexivity |].
  intros [Hx Hl]%StronglySorted_cons. simpl. rewrite (IH Hl), reverse_cons.
  assert (Hall : Forall (older_first x) (reverse l)).
  { rewrite Forall_forall in *. intros y Hy. apply Hx.
    apply elem_of_reverse. exact Hy. }
  clear -Hall. induction (reverse l) as [|y k IHk]; simpl; [reflexivity |].
  apply Forall_cons in Hall as [Hy Hk].
  destruct (Z.ltb_spec (fst y) (fst x)) as [Hlt|_].
  - unfold older_first in Hy. lia.
  - rewrite (IHk Hk). reflexivity.
Qed.

Lemma elem_of_stamped downloaded_at rows sr :
  sr ∈ stamped downloaded_at rows
  <-> exists i, rows !! i = Some (snd sr) /\ fst sr = downloaded_at i.
Proof.
  unfold stamped. rewrite elem_of_lookup_imap. split.
  - intros (i & row & -> & Hrow). eauto.
  - intros (i & Hrow & Hstamp). exists i, (snd sr).
    split; [| exact Hrow]. destruct sr; simpl in *. congruence.
Qed.

Lemma stamped_cons downloaded_at row rows :
  stamped downloaded_at (row :: rows)
  = (downloaded_at 0%nat, row) :: stamped (downloaded_at ∘ S) rows.
Proof. reflexivity. Qed.

Lemma stamped_rows downloaded_at rows id :
  map snd (filter (fun sr => dl_user_id (snd sr) = id) (stamped downloaded_at rows))
  = filter (fun row => dl_user_id row = id) rows.
Proof.
  revert downloaded_at. induction rows as [|row rows IH]; intros f; [reflexivity |].
  rewrite stamped_cons, !filter_cons. simpl.
  case_decide; simpl; rewrite IH; reflexivity.
Qed.

Lemma stamped_sorted downloaded_at rows :
  (forall i j, (i < j < length rows)%nat -> (downloaded_at i < downloaded_at j)%Z) ->
  StronglySorted older_first (stamped downloaded_at rows).
Proof.
  revert downloaded_at. induction rows as [|row rows IH]; intros f Hf.
  - constructor.
  - rewrite stamped_cons. apply StronglySorted_cons. split.
    + apply Forall_forall. intros sr (i & Hy & Hstamp)%elem_of_stamped.
      unfold older_first. simpl. rewrite Hstamp. simpl. apply Hf.
      apply lookup_lt_Some in Hy. simpl. lia.
    + apply IH. intros i j Hij. simpl. apply Hf. simpl. lia.
Qed.

Lemma filter_sorted {A} (R : A -> A -> Prop) (P : A -> Prop)
  `{forall x, Decision (P x)} l :
  StronglySorted R l -> StronglySorted R (filter P l).
Proof.
  induction l as [|x l IH]; [constructor |].
  intros [Hx Hl]%StronglySorted_cons. rewrite filter_cons.
  case_decide; [| auto].
  apply StronglySorted_cons. split; [| auto].
  apply Forall_forall. intros y [_ Hy]%list_elem_of_filter.
  rewrite Forall_forall in Hx. auto.
Qed.

Lemma sql_limit_sublist {A} limit (l : list A) : sql_limit limit l ⊆ l.
Proof.
  unfold sql_limit. destruct (limit <? 0)%Z; [reflexivity | apply subseteq_take].
Qed.

Lemma sql_limit_map {A B} (f : A -> B) limit l :
  map f (sql_limit limit l) = sql_limit limit (map f l).
Proof.
  unfold sql_limit. destruct (limit <? 0)%Z; [reflexivity | apply fmap_take].
Qed.

Lemma sql_limit_length {A} limit (l : list A) :
  (0 <= limit)%Z -> (Z.of_nat (length (sql_limit limit l)) <= limit)%Z.
Proof.
  intros Hlimit. unfold sql_limit.
  destruct (Z.ltb_spec limit 0); [lia |]. rewrite length_take. lia.
Qed.

(** X4. The history of a user has at most [limit] entries (for a limit that
    is not negative), holds only downloads of that user, each with the
    timestamp of its row, and is ordered from the newest timestamp to the
    oldest. *)
Theorem get_user_history_bounded_sorted downloaded_at id limit d :
  get_user_history downloaded_at id limit d
  = map (fun sr => (dl_track_name (snd sr), dl_artist (snd sr)))
        (history_rows downloaded_at id limit d)
  /\ ((0 <= limit)%Z ->
      (Z.of_nat (length (get_user_history downloaded_at id limit d)) <= limit)%Z)
  /\ Forall (fun sr => dl_user_id (snd sr) = id
                       /\ exists i, downloads d !! i = Some (snd sr)
                                    /\ fst sr = downloaded_at i)
            (history_rows downloaded_at id limit d)
  /\ StronglySorted (fun a b => (fst b <= fst a)%Z)
       (history_rows downloaded_at id limit d).
Proof.
  split; [reflexivity | split; [| split]].
  - intros Hlimit. unfold get_user_history, history_rows.
    rewrite length_map. apply sql_limit_length, Hlimit.
  - apply Forall_forall. intros sr Hsr. unfold history_rows in Hsr.
    apply sql_limit_sublist in Hsr. rewrite order_desc_perm in Hsr.
    apply list_elem_of_filter in Hsr as [Hid Hsr].
    split; [exact Hid |]. apply elem_of_stamped. exact Hsr.
  - unfold history_rows, sql_limit.
    pose proof (order_desc_sorted
                  (filter (fun sr => dl_user_id (snd sr) = id)
                          (stamped downloaded_at (downloads d)))) as Hsorted.
    destruct (limit <? 0)%Z; [exact Hsorted |].
    rewrite <- (take_drop (Z.to_nat limit)) in Hsorted.
    exact (StronglySorted_app_1_l _ _ _ Hsorted).
Qed.

(** X5. When the timestamps grow strictly with the rows, the history is the
    user's downloads from the last one back to the first, cut at the limit:
    most recent first. *)
Theorem get_user_history_most_recent_first downloaded_at id limit d :
  (forall i j, (i < j < length (downloads d))%nat ->
               (downloaded_at i < downloaded_at j)%Z) ->
  get_user_history downloaded_at id limit d
  = sql_limit limit
      (reverse (map (fun row => (dl_track_name row, dl_artist row))
                    (filter (fun row => dl_user_id row = id) (downloads d)))).
Proof.
  intros Hstamps. unfold get_user_history, history_rows.
  rewrite sql_limit_map. f_equal.
  rewrite order_desc_reverse
    by (apply filter_sorted, stamped_sorted, Hstamps).
  change (map ?f ?l) with (f <$> l). rewrite <- !fmap_reverse.
  change (?f <$> ?l) with (map f l).
  rewrite <- (stamped_rows downloaded_at (downloads d) id).
  rewrite <- reverse_involutive at 1.
  change (map ?f ?l) with (f <$> l). rewrite <- !fmap_reverse.
  rewrite reverse_involutive, <- list_fmap_compose. reflexivity.
Qed.

Lemma get_user_history_most_recent_first_witness :
  get_user_history Z.of_nat 7 2
    (add_download 7 "Creep" "Radiohead"
       (add_download 8 "Yellow" "Coldplay"
          (add_download 7 "Karma Police" "Radiohead"
             (add_download 7 "Believer" "Imagine" (db Sample.empty_world)))))
  = [("Creep", "Radiohead"); ("Karma Police", "Radiohead")].
Proof.
  refine (get_user_history_most_recent_first Z.of_nat 7 2 _ _).
  intros i j Hij. lia.
Defined.

(** ** The metadata client on arbitrary responses *)

Ltac break_match :=
  match goal with
  | |- context [match ?x with _ => _ end] =>
      lazymatch x with
      | context [match _ with _ => _ end] => fail
      | _ => destruct x eqn:?
      end
  end.

Ltac unfold_client :=
  unfold search_track, get_similar_tracks, get_top_tracks, or_empty, obind,
    from_response, Py.contains, Py.getitem, Py.get.

(** X6. Whatever the provider answers, [search_track] and
    [get_similar_tracks] never hand an object to their caller: a single
    object has been wrapped in a list, and every failure has become the
    empty list. *)
Theorem client_results_never_objects E :
  (forall query limit, Py.is_dict (search_track E query limit) = false)
  /\ (forall artist track limit,
        Py.is_dict (get_similar_tracks E artist track limit) = false)
  /\ (forall query limit data results trackmatches o,
        http_get_json E (search_params E query limit) = Some (JDict data) ->
        Py.assoc "results" data = Some (JDict results) ->
        Py.assoc "trackmatches" results = Some (JDict trackmatches) ->
        Py.assoc "track" trackmatches = Some (JDict o) ->
        search_track E query limit = JList [JDict o])
  /\ (forall artist track limit data similar o,
        http_get_json E (similar_params E artist track limit) = Some (JDict data) ->
        Py.assoc "similartracks" data = Some (JDict similar) ->
        Py.assoc "track" similar = Some (JDict o) ->
        get_similar_tracks E artist track limit = JList [JDict o])
  /\ (forall query limit,
        http_get_json E (search_params E query limit) = None ->
        search_track E query limit = JList [])
  /\ (forall artist track limit,
        http_get_json E (similar_params E artist track limit) = None ->
        get_similar_tracks E artist track limit = JList []).
Proof.
  split; [| split; [| split; [| split; [| split]]]].
  - intros; unfold_client;
      repeat (simpl; try reflexivity; try congruence; break_match).
  - intros; unfold_client;
      repeat (simpl; try reflexivity; try congruence; break_match).
  - apply search_track_wraps_single_object.
  - apply get_similar_tracks_wraps_single_object.
  - intros query limit Hget. unfold search_track. rewrite Hget. reflexivity.
  - intros artist track limit Hget. unfold get_similar_tracks. rewrite Hget.
    reflexivity.
Qed.

(** X7. The three operations return something else than the empty list only
    for a decoded body of the documented nesting: an object whose outer key
    holds an object in which the track field is found. A failed request, a
    body of another type and a missing key all give the empty list. *)
Theorem client_results_need_nesting E :
  (forall query limit,
     search_track E query limit <> JList [] ->
     exists data results trackmatches tracks,
       http_get_json E (search_params E query limit) = Some (JDict data)
       /\ Py.assoc "results" data = Some (JDict results)
       /\ Py.assoc "trackmatches" results = Some (JDict trackmatches)
       /\ Py.assoc "track" trackmatches = Some tracks)
  /\ (forall artist track limit,
        get_similar_tracks E artist track limit <> JList [] ->
        exists data similar tracks,
          http_get_json E (similar_params E artist track limit) = Some (JDict data)
          /\ Py.assoc "similartracks" data = Some (JDict similar)
          /\ Py.assoc "track" similar = Some tracks)
  /\ (forall limit,
        get_top_tracks E limit <> JList [] ->
        exists data tracks track,
          http_get_json E (top_params E limit) = Some (JDict data)
          /\ Py.assoc "tracks" data = Some (JDict tracks)
          /\ Py.assoc "track" tracks = Some track).
Proof.
  split; [| split]; intros *; unfold_client;
    repeat (simpl; try congruence; break_match);
    intros _; subst; eauto 10.
Qed.

Lemma client_results_need_nesting_witness :
  exists data results trackmatches tracks,
    http_get_json (Sample.env (Some Sample.yesterday) true)
      (search_params (Sample.env (Some Sample.yesterday) true) "Yesterday" 5)
    = Some (JDict data)
    /\ Py.assoc "results" data = Some (JDict results)
    /\ Py.assoc "trackmatches" results = Some (JDict trackmatches)
    /\ Py.assoc "track" trackmatches = Some tracks.
Proof.
  refine (proj1 (client_results_need_nesting
                   (Sample.env (Some Sample.yesterday) true)) "Yesterday" 5%Z _).
  discriminate.
Defined.

(** A failed request gives the empty list. *)
Lemma search_track_transport_error E query limit :
  http_get_json E (search_params E query limit) = None ->
  search_track E query limit = JList [].
Proof. intros Hget. unfold search_track. rewrite Hget. reflexivity. Qed.

(** ** The acquirer's file name *)

Lemma contains_char_app c l r :
  PyStr.contains_char c (l +:+ r)
  = PyStr.contains_char c l || PyStr.contains_char c r.
Proof.
  induction l as [|a l IH]; simpl; [reflexivity |].
  destruct (Ascii.eqb a c); [reflexivity | exact IH].
Qed.

Lemma rsplit1_head_at c base ext :
  PyStr.contains_char c ext = false ->
  PyStr.rsplit1_head c (base +:+ String c ext) = base.
Proof.
  intros Hext. induction base as [|a base IH]; simpl.
  - rewrite Hext, Ascii.eqb_refl. reflexivity.
  - rewrite contains_char_app. simpl. rewrite Ascii.eqb_refl, orb_true_r.
    rewrite IH. reflexivity.
Qed.

Lemma rsplit1_head_none c s :
  PyStr.contains_char c s = false -> PyStr.rsplit1_head c s = s.
Proof.
  destruct s as [|a s]; simpl; [reflexivity |].
  destruct (Ascii.eqb a c); [discriminate |]. intros ->. reflexivity.
Qed.

(** X8. [download_audio] asks yt-dlp for the first hit of the query and
    returns the prepared file name with its last extension replaced by
    [mp3], or with [.mp3] appended when the name has no dot; when yt-dlp
    raises it returns nothing. In each case the store is untouched and the
    call is the only thing recorded. *)
Theorem download_audio_mp3_name E query w present :
  (forall base ext,
     ydl_run E ("ytsearch1:" +:+ query) (files w)
     = (Some (base +:+ "." +:+ ext), present) ->
     PyStr.contains_char PyStr.dot ext = false ->
     download_audio E query w
     = (Ret (Some (base +:+ ".mp3")),
        {| db := db w; files := present;
           trace := trace w ++ [Acquired query] |}))
  /\ (forall name,
        ydl_run E ("ytsearch1:" +:+ query) (files w) = (Some name, present) ->
        PyStr.contains_char PyStr.dot name = false ->
        download_audio E query w
        = (Ret (Some (name +:+ ".mp3")),
           {| db := db w; files := present;
              trace := trace w ++ [Acquired query] |}))
  /\ (ydl_run E ("ytsearch1:" +:+ query) (files w) = (None, present) ->
      download_audio E query w
      = (Ret None,
         {| db := db w; files := present;
            trace := trace w ++ [Acquired query] |})).
Proof.
  unfold download_audio. repeat split.
  - intros base ext -> Hext.
    change (base +:+ "." +:+ ext) with (base +:+ String PyStr.dot ext).
    rewrite (rsplit1_head_at _ _ _ Hext). reflexivity.
  - intros name -> Hname. rewrite (rsplit1_head_none _ _ Hname). reflexivity.
  - intros ->. reflexivity.
Qed.

Lemma download_audio_mp3_name_witness :
  download_audio (Sample.env None true) "Believer" Sample.empty_world
  = (Ret (Some "/tmp/song.mp3"),
     {| db := db Sample.empty_world; files := {["/tmp/song.mp3"]} ∪ ∅;
        trace := [Acquired "Believer"] |}).
Proof.
  refine (proj1 (download_audio_mp3_name (Sample.env None true) "Believer"
                   Sample.empty_world ({["/tmp/song.mp3"]} ∪ ∅))
            "/tmp/song" "webm" eq_refl eq_refl).
Defined.

(** ** The split rules *)

Lemma split_first_spec c s l r :
  PyStr.split_first c s = Some (l, r) ->
  s = l +:+ String c r /\ PyStr.contains_char c l = false.
Proof.
  revert l r. induction s as [|a s IH]; simpl; [discriminate |].
  intros l r. destruct (Ascii.eqb_spec a c) as [->|Hne].
  - intros [= <- <-]. split; reflexivity.
  - destruct (PyStr.split_first c s) as [[l' r']|]; [| discriminate].
    intros [= <- <-]. destruct (IH l' r' eq_refl) as [-> Hl]. simpl.
    split; [reflexivity |].
    destruct (Ascii.eqb_spec a c); [contradiction | exact Hl].
Qed.

(** X9. Splitting at the first separator loses nothing: the parts of
    [s.split(c, 1)] joined by [c] are [s] again, there are one or two of
    them, and the first holds no separator. This is the rule behind both the
    artist and title of the history and the arguments of [/similar]. *)
Theorem split1_join_round_trip c s :
  PyStr.join (String c EmptyString) (PyStr.split1 c s) = s
  /\ (PyStr.contains_char c s = false -> PyStr.split1 c s = [s])
  /\ (PyStr.contains_char c s = true ->
      exists l r, PyStr.split1 c s = [l; r]
                  /\ PyStr.contains_char c l = false)
  /\ (PyStr.contains_char PyStr.space s = true ->
      history_artist s +:+ " " +:+ history_title s = s).
Proof.
  unfold history_artist, history_title, PyStr.split1. repeat split.
  - destruct (PyStr.split_first c s) as [[l r]|] eqn:Hsplit; [| reflexivity].
    destruct (split_first_spec _ _ _ _ Hsplit) as [-> _]. reflexivity.
  - intros Hc. rewrite (split_first_none _ _ Hc). reflexivity.
  - intros Hc. destruct (split_first_contains _ _ Hc) as (l & r & Hsplit).
    rewrite Hsplit. exists l, r. split; [reflexivity |].
    exact (proj2 (split_first_spec _ _ _ _ Hsplit)).
  - intros Hc. destruct (split_first_contains _ _ Hc) as (l & r & Hsplit).
    rewrite Hsplit. simpl.
    destruct (split_first_spec _ _ _ _ Hsplit) as [-> _]. reflexivity.
Qed.

(** ** What the free-text flow leaves alone *)

Definition is_ad (r : reply) : bool :=
  match r with Ad _ => true | _ => false end.

(** The advertisements among the texts of a trace. *)
Definition ads (t : list event) : list reply := filter (fun r => is_ad r = true) (replies t).

Lemma replies_app t1 t2 : replies (t1 ++ t2) = replies t1 ++ replies t2.
Proof. apply flat_map_app. Qed.

Lemma ads_app t1 t2 : ads (t1 ++ t2) = ads t1 ++ ads t2.
Proof. unfold ads. rewrite replies_app. apply filter_app. Qed.

Lemma random_ad_in_pool E : random_ad E ∈ AD_MESSAGES.
Proof.
  unfold random_ad. apply list_elem_of_In, nth_In.
  apply Nat.mod_upper_bound. discriminate.
Qed.

Lemma random_ad_is_ad E : is_ad (random_ad E) = true.
Proof.
  unfold random_ad. simpl length.
  pose proof (Nat.mod_upper_bound (random_index E) 3) as Hlt.
  destruct (Nat.modulo (random_index E) 3) as [|[|[|n]]]; try reflexivity.
  lia.
Qed.

Lemma search_listing_text E tracks text :
  search_listing E tracks = Ret text -> is_ad text = false.
Proof.
  unfold search_listing, obind.
  destruct (Py.iter tracks); [| discriminate].
  destruct (omap (result_line E) a); [| discriminate].
  intros [= <-]. reflexivity.
Qed.

(** The search phase only replies, and never with an advertisement. *)
Lemma choose_download_query_quiet E mode query w :
  exists o w2 evs,
    choose_download_query E mode query w = (o, w2)
    /\ db w2 = db w /\ files w2 = files w
    /\ trace w2 = trace w ++ evs
    /\ acquisitions evs = [] /\ audio_sends evs = []
    /\ ad_checks evs = [] /\ ads evs = [].
Proof.
  unfold choose_download_query.
  destruct (String.eqb mode "advanced");
    [destruct (Py.truthy (search_track E query 5)) |].
  - run_monad. destruct (search_listing E _) as [text|e] eqn:Htext; simpl.
    + eexists _, _, [Replied text]. split; [reflexivity |]. simpl.
      unfold ads. simpl. rewrite filter_cons, filter_nil.
      rewrite (search_listing_text _ _ _ Htext).
      case_decide; [discriminate |]. auto 10.
    + eexists _, _, []. split; [reflexivity |]. rewrite app_nil_r. auto 10.
  - eexists _, _, []. split; [reflexivity |]. rewrite app_nil_r. auto 10.
  - eexists _, _, []. split; [reflexivity |]. rewrite app_nil_r. auto 10.
Qed.

(** However [acquire] ends, it has recorded no download and sent neither
    audio nor advertisement, and the promotional check has not run yet; it
    has called the acquirer once if it returned, and not at all if it
    raised. *)
Lemma acquire_cases E u w :
  exists o w1 evs,
    acquire E u w = (o, w1)
    /\ trace w1 = trace w ++ evs
    /\ downloads (db w1) = downloads (db w)
    /\ audio_sends evs = [] /\ ad_checks evs = [] /\ ads evs = []
    /\ match o with
       | Ret (count, download_query, file_path) =>
           acquisitions evs = [download_query]
       | Raise _ => acquisitions evs = [] /\ files w1 = files w
       end.
Proof.
  rewrite acquire_unfold. unfold bind at 1.
  set (w0 := {| db := _; files := files w; trace := _ |}).
  destruct (choose_download_query_quiet E (mode (row_of u (db w))) (text u) w0)
    as (o & w2 & evs & Hchoose & Hdb & Hfiles & Htrace & Hacq & Hsend & Hcheck & Hads).
  rewrite Hchoose. destruct o as [dq|e].
  - unfold bind at 1. unfold reply_text. unfold bind at 1.
    destruct (download_audio_run E dq (log (Replied Downloading) w2))
      as (fp & present & -> & _).
    unfold ret. simpl.
    eexists _, _, (Replied SearchingMusic :: evs ++ [Replied Downloading; Acquired dq]).
    split; [reflexivity |]. simpl. rewrite Htrace, Hdb. subst w0. simpl.
    repeat split; auto;
      try (rewrite <- !app_assoc; reflexivity);
      try (rewrite audio_sends_app, Hsend; reflexivity);
      try (rewrite ad_checks_app, Hcheck; reflexivity);
      try (rewrite acquisitions_app, Hacq; reflexivity);
      try (unfold ads in *; simpl; rewrite replies_app, filter_cons, filter_app;
           rewrite Hads; case_decide; [discriminate | reflexivity]).
  - eexists _, _, (Replied SearchingMusic :: evs).
    split; [reflexivity |]. rewrite Htrace, Hdb, Hfiles. subst w0. simpl.
    repeat split; auto; try (rewrite <- !app_assoc; reflexivity);
      try (unfold ads in *; simpl; rewrite filter_cons; rewrite Hads;
           case_decide; [discriminate | reflexivity]).
Qed.

(** Delivery, in full: it always returns, keeps the users, removes at most
    the artifact, records a download exactly when the audio went through,
    and sends no advertisement. *)
Lemma deliver_frame E user_id download_query file_path w :
  exists w' evs,
    deliver E user_id download_query file_path w = (Ret tt, w')
    /\ users (db w') = users (db w)
    /\ trace w' = trace w ++ evs
    /\ acquisitions evs = [] /\ ad_checks evs = [] /\ ads evs = []
    /\ files w' ⊆ files w
    /\ (forall path, path ∈ files w -> path ∉ files w' -> file_path = Some path)
    /\ ((audio_sends evs = [] \/ exists path, audio_sends evs = [(path, download_query, false)])
        /\ downloads (db w') = downloads (db w)
        \/ (exists path, audio_sends evs = [(path, download_query, true)])
           /\ downloads (db w')
              = downloads (db w)
                ++ [ {| dl_user_id := user_id;
                        dl_track_name := history_title download_query;
                        dl_artist := history_artist download_query |} ]).
Proof.
  assert (Hfail : deliver E user_id download_query file_path w
                  = (Ret tt, log (Replied DownloadFailed) w) ->
                  exists w' evs, deliver E user_id download_query file_path w = (Ret tt, w')
    /\ users (db w') = users (db w)
    /\ trace w' = trace w ++ evs
    /\ acquisitions evs = [] /\ ad_checks evs = [] /\ ads evs = []
    /\ files w' ⊆ files w
    /\ (forall path, path ∈ files w -> path ∉ files w' -> file_path = Some path)
    /\ ((audio_sends evs = [] \/ exists path, audio_sends evs = [(path, download_query, false)])
        /\ downloads (db w') = downloads (db w)
        \/ (exists path, audio_sends evs = [(path, download_query, true)])
           /\ downloads (db w')
              = downloads (db w)
                ++ [ {| dl_user_id := user_id;
                        dl_track_name := history_title download_query;
                        dl_artist := history_artist download_query |} ])).
  { intros ->. eexists _, [Replied DownloadFailed]. split; [reflexivity |].
    simpl. repeat split; auto. intros path H1 H2. contradiction. }
  destruct file_path as [path|]; [| apply Hfail, deliver_not_acquired; auto].
  destruct (PyStr.truthy path) eqn:Htruthy;
    [| apply Hfail; unfold deliver, acquired; rewrite Htruthy; reflexivity].
  destruct (decide (path ∈ files w)) as [Hin|Hout];
    [| apply Hfail, deliver_not_acquired; eauto].
  destruct (reply_audio_ok E path download_query) eqn:Hsend.
  - rewrite (deliver_sent _ _ _ _ _ Htruthy Hin Hsend).
    eexists _, [AudioSent path download_query "MelodyForge" true].
    split; [reflexivity |]. simpl. repeat split; auto.
    + apply subseteq_difference_l. reflexivity.
    + intros p Hp Hnp. f_equal. apply dec_stable. intros Hne.
      apply Hnp. apply elem_of_difference. split; [exact Hp |].
      rewrite elem_of_singleton. congruence.
    + right. eauto.
  - rewrite (deliver_send_failed _ _ _ _ _ Htruthy Hin Hsend).
    eexists _, [AudioSent path download_query "MelodyForge" false; Replied SendError].
    split; [reflexivity |]. simpl. repeat split; auto.
    + intros p Hp Hnp. contradiction.
    + left. split; [right; eauto | reflexivity].
Qed.

(** One run of [message_handler], summed up: the count it checks, and for
    a run that returns, the single acquisition, the single promotional
    check, the advertisement if it is due, and the download recorded exactly
    when the audio went through. *)
Lemma message_handler_summary E u w :
  exists o w' evs,
    message_handler E u w = (o, w')
    /\ trace w' = trace w ++ evs
    /\ match o with
       | Raise _ =>
           downloads (db w') = downloads (db w)
           /\ acquisitions evs = [] /\ audio_sends evs = []
           /\ ad_checks evs = [] /\ ads evs = []
       | Ret _ =>
           let count := (interaction_count (row_of u (db w)) + 1)%Z in
           exists download_query,
             acquisitions evs = [download_query]
             /\ ad_checks evs = [count]
             /\ ads evs = (if should_show_ad count then [random_ad E] else [])
             /\ (should_show_ad count = true ->
                 last evs = Some (Replied (random_ad E)))
             /\ ((audio_sends evs = []
                  \/ exists path, audio_sends evs = [(path, download_query, false)])
                 /\ downloads (db w') = downloads (db w)
                 \/ (exists path, audio_sends evs = [(path, download_query, true)])
                    /\ downloads (db w')
                       = downloads (db w)
                         ++ [ {| dl_user_id := user_id u;
                                 dl_track_name := history_title download_query;
                                 dl_artist := history_artist download_query |} ])
       end.
Proof.
  destruct (acquire_cases E u w)
    as (o & w1 & evs1 & Hacq & Htrace1 & Hdl1 & Hsend1 & Hcheck1 & Hads1 & Ho).
  unfold message_handler. unfold bind at 1. rewrite Hacq.
  destruct o as [[[count dq] fp]|e].
  - destruct (acquire_inv _ _ _ _ _ _ _ Hacq) as (-> & _).
    unfold bind.
    destruct (deliver_frame E (user_id u) dq fp w1)
      as (w2 & evs2 & -> & _ & Htrace2 & Hacq2 & Hcheck2 & Hads2 & _ & _ & Hrec).
    rewrite show_ad_run.
    set (count := (interaction_count (row_of u (db w)) + 1)%Z).
    eexists _, _, (evs1 ++ evs2 ++ AdChecked count ::
                     (if should_show_ad count then [Replied (random_ad E)] else [])).
    split; [reflexivity |]. simpl.
    split; [rewrite Htrace2, Htrace1, <- !app_assoc; reflexivity |].
    exists dq.
    rewrite !acquisitions_app, !ad_checks_app, !ads_app, !audio_sends_app.
    rewrite Hdl1 in Hrec.
    rewrite Ho, Hacq2, Hcheck1, Hcheck2, Hads1, Hads2, Hsend1. simpl.
    destruct (should_show_ad count) eqn:Hshow; simpl.
    + repeat split; auto.
      * unfold ads. simpl. rewrite filter_cons, filter_nil.
        rewrite random_ad_is_ad. case_decide; [reflexivity | contradiction].
      * intros _.
        change (evs1 ++ evs2 ++ [AdChecked count; Replied (random_ad E)])
          with (evs1 ++ evs2 ++ [AdChecked count] ++ [Replied (random_ad E)]).
        rewrite !app_assoc. apply last_snoc.
      * rewrite !app_nil_r. exact Hrec.
    + repeat split; auto.
      * discriminate.
      * rewrite !app_nil_r. exact Hrec.
  - destruct Ho as [Hacqs _].
    eexists _, _, evs1. split; [reflexivity |]. simpl. auto 10.
Qed.

(** X10. A free-text message changes one thing in the table of users: the
    sender's counter, which goes up by one. A sender without a row gets one
    with the display name, mode ["basic"] and counter [1]; a sender with a
    row keeps name and mode; every other row is as it was. This holds however
    the handler ends. *)
Theorem message_handler_touches_only_the_counter E u w :
  (forall row,
     get_user (user_id u) (db w) = Some row ->
     get_user (user_id u) (db (snd (message_handler E u w)))
     = Some {| username := username row; mode := mode row;
               interaction_count := interaction_count row + 1 |})
  /\ (get_user (user_id u) (db w) = None ->
      get_user (user_id u) (db (snd (message_handler E u w)))
      = Some {| username := display_name u; mode := "basic";
                interaction_count := 1 |})
  /\ (forall other,
        other <> user_id u ->
        get_user other (db (snd (message_handler E u w)))
        = get_user other (db w)).
Proof.
  unfold get_user. rewrite message_handler_increments_once. repeat split.
  - intros row Hrow. rewrite lookup_insert_eq. unfold row_of. rewrite Hrow.
    reflexivity.
  - intros Hrow. rewrite lookup_insert_eq. unfold row_of. rewrite Hrow.
    reflexivity.
  - intros other Hother. apply lookup_insert_ne. congruence.
Qed.

Lemma message_handler_touches_only_the_counter_witness :
  get_user 7 (db (snd (message_handler (Sample.env None true)
                         (Sample.ann "Believer") (Sample.known_world true))))
  = Some {| username := "Ann"; mode := "advanced"; interaction_count := 1 |}
  /\ get_user 7 (db (snd (message_handler (Sample.env None true)
                            (Sample.ann "Believer") Sample.empty_world)))
     = Some {| username := "Ann"; mode := "basic"; interaction_count := 1 |}.
Proof.
  split.
  - exact (proj1 (message_handler_touches_only_the_counter (Sample.env None true)
                    (Sample.ann "Believer") (Sample.known_world true))
             {| username := "Ann"; mode := "advanced"; interaction_count := 0 |}
             eq_refl).
  - exact (proj1 (proj2 (message_handler_touches_only_the_counter
                           (Sample.env None true) (Sample.ann "Believer")
                           Sample.empty_world)) eq_refl).
Defined.


(** X12. The cadence of the advertisement. A run of [message_handler] that
    returns has checked once, on the sender's count after the increment, and
    has sent exactly one advertisement, as its last message and taken from
    [AD_MESSAGES], when that count is a positive multiple of ten, and none
    otherwise; a run that raises has sent none. *)
Theorem message_handler_ad_cadence E u w :
  let count := (interaction_count (row_of u (db w)) + 1)%Z in
  exists o w' evs,
    message_handler E u w = (o, w')
    /\ trace w' = trace w ++ evs
    /\ random_ad E ∈ AD_MESSAGES
    /\ match o with
       | Ret _ =>
           ad_checks evs = [count]
           /\ ((count > 0 /\ count `mod` 10 = 0)%Z ->
               ads evs = [random_ad E]
               /\ last evs = Some (Replied (random_ad E)))
           /\ (~ (count > 0 /\ count `mod` 10 = 0)%Z -> ads evs = [])
       | Raise _ => ad_checks evs = [] /\ ads evs = []
       end.
Proof.
  intros count.
  destruct (message_handler_summary E u w) as (o & w' & evs & Hrun & Htrace & Ho).
  exists o, w', evs. split; [exact Hrun |]. split; [exact Htrace |].
  split; [apply random_ad_in_pool |].
  destruct o as [[]|e].
  - destruct Ho as (dq & _ & Hcheck & Hads & Hlast & _). fold count in Hcheck, Hads, Hlast.
    split; [exact Hcheck |].
    assert (Hiff : should_show_ad count = true <-> (count > 0 /\ count `mod` 10 = 0)%Z).
    { unfold should_show_ad. rewrite andb_true_iff, Z.ltb_lt, Z.eqb_eq. lia. }
    split.
    + intros Hdue. apply Hiff in Hdue. rewrite Hdue in Hads. auto.
    + intros Hnot. destruct (should_show_ad count); [| exact Hads].
      exfalso. apply Hnot, Hiff. reflexivity.
  - destruct Ho as (_ & _ & _ & Hcheck & Hads). auto.
Qed.

(** ** Several messages, and messages without a usable search *)

Lemma run_messages_cons m msgs w :
  run_messages (m :: msgs) w
  = run_messages msgs (snd (message_handler (fst m) (snd m) w)).
Proof. reflexivity. Qed.

(** X13. Over any sequence of free-text messages, from whichever users and
    however each run ends, a user's counter grows by the number of messages
    that came from that user; name and mode are kept. *)
Theorem run_messages_counts_every_message msgs w id row :
  get_user id (db w) = Some row ->
  get_user id (db (run_messages msgs w))
  = Some {| username := username row; mode := mode row;
            interaction_count :=
              interaction_count row
              + Z.of_nat (length (filter (fun m => user_id (snd m) = id) msgs)) |}.
Proof.
  unfold get_user. revert w row.
  induction msgs as [|[E u] msgs IH]; intros w row Hrow.
  - simpl. rewrite Hrow, Z.add_0_r. destruct row; reflexivity.
  - rewrite run_messages_cons, filter_cons. simpl fst. simpl snd.
    case_decide as Hid.
    + rewrite (IH _ (bump row)).
      * simpl. do 2 f_equal. lia.
      * rewrite message_handler_increments_once, <- Hid, lookup_insert_eq.
        unfold row_of. rewrite Hid, Hrow. reflexivity.
    + apply IH. rewrite message_handler_increments_once.
      rewrite lookup_insert_ne by congruence. exact Hrow.
Qed.

Lemma run_messages_counts_every_message_witness :
  get_user 7 (db (run_messages
                    [(Sample.env None true, Sample.ann "Believer");
                     (Sample.env None false, Sample.ann "Creep");
                     (Sample.env_missing_file, Sample.ann "Yellow")]
                    (Sample.known_world false)))
  = Some {| username := "Ann"; mode := "basic"; interaction_count := 3 |}.
Proof.
  exact (run_messages_counts_every_message
           [(Sample.env None true, Sample.ann "Believer");
            (Sample.env None false, Sample.ann "Creep");
            (Sample.env_missing_file, Sample.ann "Yellow")]
           (Sample.known_world false) 7
           {| username := "Ann"; mode := "basic"; interaction_count := 0 |}
           eq_refl).
Defined.

(** X14. When the request to the provider fails, the free-text flow goes on
    in either mode with the text of the message as the download query: the
    acquirer is called once, with that text, and the handler returns. *)
Theorem provider_failure_falls_back_to_text E u w :
  http_get_json E (search_params E (text u) 5) = None ->
  exists w',
    message_handler E u w = (Ret tt, w')
    /\ acquisitions (trace w') = acquisitions (trace w) ++ [text u].
Proof.
  intros Hget.
  edestruct (acquire_returns E u w (text u)) as (fp & w1 & Hacq).
  { unfold choose_download_query.
    rewrite (search_track_transport_error _ _ _ Hget). simpl.
    destruct (String.eqb _ _); reflexivity. }
  destruct (message_handler_checks_once _ _ _ _ _ _ _ Hacq) as (w' & Hrun & _).
  exists w'. split; [exact Hrun |].
  rewrite <- (message_handler_acquisitions _ _ _ _ _ _ _ Hacq), Hrun.
  reflexivity.
Qed.

Lemma provider_failure_falls_back_to_text_witness :
  exists w',
    message_handler (Sample.env None true) (Sample.ann "Yesterday")
      (Sample.known_world true) = (Ret tt, w')
    /\ acquisitions (trace w')
       = acquisitions (trace (Sample.known_world true)) ++ ["Yesterday"].
Proof.
  exact (provider_failure_falls_back_to_text (Sample.env None true)
           (Sample.ann "Yesterday") (Sample.known_world true) eq_refl).
Defined.

(** The field of a result as the listing and the query show it. *)
Definition shown_field (E : Env) (key : string) (track : list (string * json))
  : string :=
  py_str E (default (JStr "Unknown") (Py.assoc key track)).

(** X15. In advanced mode a first result that lacks its artist or its name
    is downloaded under ["Unknown"] in that place: the query is the artist
    field, a space and the name field, each read with the default
    ["Unknown"]. *)
Theorem missing_fields_are_unknown E u w row top rest :
  users (db w) !! user_id u = Some row ->
  mode row = "advanced" ->
  search_track E (text u) 5 = JList (JDict top :: rest) ->
  Forall (fun t => Py.is_dict t = true) rest ->
  acquisitions (trace (snd (message_handler E u w)))
  = acquisitions (trace w)
    ++ [shown_field E "artist" top +:+ " " +:+ shown_field E "name" top]
  /\ (renders_strings E ->
      Py.assoc "artist" top = None ->
      forall title, Py.assoc "name" top = Some (JStr title) ->
      acquisitions (trace (snd (message_handler E u w)))
      = acquisitions (trace w) ++ ["Unknown " +:+ title]).
Proof.
  intros Hrow Hmode Hsearch Hrest.
  assert (Hadv : mode (row_of u (db w)) = "advanced").
  { unfold row_of. rewrite Hrow. exact Hmode. }
  destruct (result_lines_of_objects E (JDict top :: rest)) as (lines & Hlines).
  { constructor; [reflexivity | exact Hrest]. }
  edestruct (acquire_returns E u w
               (shown_field E "artist" top +:+ " " +:+ shown_field E "name" top))
    as (fp & w1 & Hacq).
  { unfold choose_download_query. rewrite Hadv, Hsearch. simpl.
    unfold search_listing, first_result_query. simpl Py.iter. simpl Py.first.
    unfold obind at 1. rewrite Hlines. run_monad.
    unfold shown_field, default.
    destruct (Py.assoc "artist" top), (Py.assoc "name" top); reflexivity. }
  pose proof (message_handler_acquisitions _ _ _ _ _ _ _ Hacq) as Hq.
  split; [exact Hq |].
  intros Hstr Hartist title Hname. rewrite Hq. unfold shown_field.
  rewrite Hartist, Hname. simpl. rewrite !Hstr. reflexivity.
Qed.

Lemma missing_fields_are_unknown_witness :
  let E := Sample.env (Some (Sample.search_body
                               (JList [JDict [("name", JStr "Yesterday")]]))) true in
  acquisitions (trace (snd (message_handler E (Sample.ann "Yesterday")
                              (Sample.known_world true))))
  = ["Unknown Yesterday"].
Proof.
  intros E.
  exact (proj2 (missing_fields_are_unknown E (Sample.ann "Yesterday")
                  (Sample.known_world true)
                  {| username := "Ann"; mode := "advanced"; interaction_count := 0 |}
                  [("name", JStr "Yesterday")] []
                  eq_refl eq_refl eq_refl (Forall_nil_2 _))
           (fun s => eq_refl) eq_refl "Yesterday" eq_refl).
Defined.

(** ** More on the [/similar] flow *)

(** However [/similar] ends: the texts it sent, and the store with at most
    the sender's counter incremented. *)
Lemma similar_command_cases E u args w :
  exists o w' rs,
    similar_command E u args w = (o, w')
    /\ files w' = files w
    /\ trace w' = trace w ++ rs
    /\ acquisitions rs = [] /\ audio_sends rs = []
    /\ downloads (db w') = downloads (db w)
    /\ (users (db w') = users (db w)
        \/ exists row, users (db w) !! user_id u = Some row
                       /\ users (db w') = <[user_id u := bump row]> (users (db w))).
Proof.
  assert (Hstop : forall o r,
            similar_command E u args w = (o, log (Replied r) w) ->
            exists o w' rs,
              similar_command E u args w = (o, w')
              /\ files w' = files w
              /\ trace w' = trace w ++ rs
              /\ acquisitions rs = [] /\ audio_sends rs = []
              /\ downloads (db w') = downloads (db w)
              /\ (users (db w') = users (db w)
                  \/ exists row, users (db w) !! user_id u = Some row
                       /\ users (db w') = <[user_id u := bump row]> (users (db w)))).
  { intros o r ->. eexists _, _, [Replied r]. split; [reflexivity |].
    simpl. auto 10. }
  destruct args as [|a args]; [apply (Hstop (Ret tt) UsageHint); reflexivity |].
  destruct (PyStr.contains_char PyStr.dash (PyStr.join " " (a :: args))) eqn:Hdash;
    [| apply (Hstop (Ret tt) BadFormat); unfold similar_command;
       rewrite Hdash; reflexivity].
  destruct (split_first_contains _ _ Hdash) as (artist & track & Hsplit).
  assert (Hsplit1 : PyStr.split1 PyStr.dash (PyStr.join " " (a :: args))
                    = [artist; track]).
  { unfold PyStr.split1. rewrite Hsplit. reflexivity. }
  rewrite (similar_command_well_formed _ _ _ _ _ Hsplit1).
  unfold bind, reply_text, lift, call_db.
  destruct (similar_listing E _ _ _) as [text|e].
  - destruct (users (db w) !! user_id u) as [row|] eqn:Hrow.
    + simpl db. rewrite (increment_interaction_present _ _ _ Hrow).
      rewrite show_ad_run.
      eexists _, _, (Replied SearchingSimilar :: Replied text ::
                       AdChecked (interaction_count row + 1) ::
                       (if should_show_ad (interaction_count row + 1)
                        then [Replied (random_ad E)] else [])).
      split; [reflexivity |]. simpl.
      split; [reflexivity |]. split; [rewrite <- !app_assoc; reflexivity |].
      split; [destruct (should_show_ad _); reflexivity |].
      split; [destruct (should_show_ad _); reflexivity |].
      split; [reflexivity |]. right. exists row. split; [reflexivity |].
      apply map_eq. intros k. rewrite lookup_alter, lookup_insert.
      case_decide; subst; [rewrite Hrow |]; reflexivity.
    + simpl db. rewrite (increment_interaction_absent _ _ Hrow).
      eexists _, _, [Replied SearchingSimilar; Replied text].
      split; [reflexivity |]. simpl.
      split; [reflexivity |]. split; [rewrite <- !app_assoc; reflexivity |].
      auto 10.
  - eexists _, _, [Replied SearchingSimilar]. split; [reflexivity |].
    simpl. auto 10.
Qed.

(** X16. [/similar] stays out of acquisition and delivery: whatever its
    arguments and however it ends, the downloads and the files are as
    before, the acquirer has not been called and no audio has been sent; the
    rows of the other users, and the sender's name and mode, are as
    before. *)
Theorem similar_command_stays_out_of_delivery E u args w :
  downloads (db (snd (similar_command E u args w))) = downloads (db w)
  /\ files (snd (similar_command E u args w)) = files w
  /\ acquisitions (trace (snd (similar_command E u args w)))
     = acquisitions (trace w)
  /\ audio_sends (trace (snd (similar_command E u args w)))
     = audio_sends (trace w)
  /\ (forall other,
        other <> user_id u ->
        get_user other (db (snd (similar_command E u args w)))
        = get_user other (db w))
  /\ mode <$> get_user (user_id u) (db (snd (similar_command E u args w)))
     = mode <$> get_user (user_id u) (db w)
  /\ username <$> get_user (user_id u) (db (snd (similar_command E u args w)))
     = username <$> get_user (user_id u) (db w).
Proof.
  destruct (similar_command_cases E u args w)
    as (o & w' & rs & -> & Hfiles & Htrace & Hacq & Hsend & Hdl & Husers).
  unfold get_user. simpl. rewrite Htrace, acquisitions_app, audio_sends_app.
  rewrite Hacq, Hsend, !app_nil_r.
  destruct Husers as [-> | (row & Hrow & ->)].
  - auto 10.
  - rewrite lookup_insert_eq, Hrow. repeat split; auto.
    intros other Hother. apply lookup_insert_ne. congruence.
Qed.



(** A similar track that the listing can show: an object whose artist, when
    present, is an object too. *)
Definition listable (track : json) : bool :=
  match track with
  | JDict d =>
      match Py.assoc "artist" d with
      | Some (JDict _) | None => true
      | Some _ => false
      end
  | _ => false
  end.

Lemma similar_line_listable E track :
  if listable track
  then exists line, similar_line E track = Ret line
  else similar_line E track = Raise AttributeError.
Proof.
  destruct track as [| | | | |d]; try reflexivity.
  unfold listable, similar_line. simpl.
  destruct (Py.assoc "artist" d) as [[| | | | |a]|]; simpl; eauto.
Qed.

Lemma similar_lines_listable E tracks :
  if forallb listable tracks
  then exists lines, omap (similar_line E) tracks = Ret lines
  else omap (similar_line E) tracks = Raise AttributeError.
Proof.
  induction tracks as [|t tracks IH]; simpl; [eauto |].
  pose proof (similar_line_listable E t) as Ht.
  destruct (listable t); simpl.
  - destruct Ht as (line & ->). simpl.
    destruct (forallb listable tracks).
    + destruct IH as (lines & ->). simpl. eauto.
    + rewrite IH. reflexivity.
  - rewrite Ht. reflexivity.
Qed.

(** X18. [/similar] counts as an interaction only if its report can be
    built. When the provider's list holds a track that is not an object, or
    whose artist is not an object (a plain string, as in search results),
    building the report raises [AttributeError]: the handler ends after its
    first reply, nothing is incremented and the promotional check does not
    run. *)
Theorem similar_command_unlistable_tracks E u args w artist track tracks :
  PyStr.split1 PyStr.dash (PyStr.join " " args) = [artist; track] ->
  get_similar_tracks E (PyStr.strip artist) (PyStr.strip track) 8 = JList tracks ->
  forallb listable tracks = false ->
  similar_command E u args w
  = (Raise AttributeError,
     {| db := db w; files := files w;
        trace := trace w ++ [Replied SearchingSimilar] |}).
Proof.
  intros Hsplit Htracks Hbad.
  rewrite (similar_command_well_formed _ _ _ _ _ Hsplit).
  unfold bind at 1. unfold reply_text at 1. unfold bind at 1. unfold lift.
  rewrite Htracks. unfold similar_listing.
  destruct tracks as [|t tracks]; [discriminate |].
  pose proof (similar_lines_listable E (t :: tracks)) as Hlines.
  rewrite Hbad in Hlines. simpl Py.truthy. simpl Py.iter.
  unfold obind at 1. rewrite Hlines. reflexivity.
Qed.

Lemma similar_command_unlistable_tracks_witness :
  let E := Sample.env
             (Some (JDict [("similartracks",
                            JDict [("track",
                                    JList [Sample.track "Coldplay" "Yellow"])])]))
             true in
  similar_command E (Sample.ann "") ["Coldplay"; "-"; "Fix"; "You"]
    (Sample.known_world true)
  = (Raise AttributeError,
     {| db := db (Sample.known_world true);
        files := files (Sample.known_world true);
        trace := trace (Sample.known_world true) ++ [Replied SearchingSimilar] |}).
Proof.
  intros E.
  exact (similar_command_unlistable_tracks E (Sample.ann "")
           ["Coldplay"; "-"; "Fix"; "You"] (Sample.known_world true)
           "Coldplay " " Fix You" [Sample.track "Coldplay" "Yellow"]
           eq_refl eq_refl eq_refl).
Defined.

(** ** The menus *)

(** The store that [button_handler] leaves. *)
Definition store_after (r : outcome unit * Database * list menu_event) : Database :=
  snd (fst r).

(** X19. No button touches the counters, the names, the downloads or the
    set of users, and none touches the row of somebody else; only the two
    mode buttons change the store at all. *)
Theorem button_handler_keeps_counters E downloaded_at id data d :
  downloads (store_after (button_handler E downloaded_at id data d)) = downloads d
  /\ (forall k,
        interaction_count
          <$> get_user k (store_after (button_handler E downloaded_at id data d))
        = interaction_count <$> get_user k d)
  /\ (forall k,
        username
          <$> get_user k (store_after (button_handler E downloaded_at id data d))
        = username <$> get_user k d)
  /\ (forall k,
        k <> id ->
        get_user k (store_after (button_handler E downloaded_at id data d))
        = get_user k d)
  /\ (data <> "mode_basic" -> data <> "mode_advanced" ->
      store_after (button_handler E downloaded_at id data d) = d).
Proof.
  assert (Hmode : forall m,
            downloads (update_mode id m d) = downloads d
            /\ (forall k, interaction_count <$> get_user k (update_mode id m d)
                          = interaction_count <$> get_user k d)
            /\ (forall k, username <$> get_user k (update_mode id m d)
                          = username <$> get_user k d)
            /\ (forall k, k <> id ->
                          get_user k (update_mode id m d) = get_user k d)).
  { intros m. unfold get_user, update_mode. simpl. repeat split.
    - intros k. rewrite lookup_alter. case_decide; [| reflexivity].
      subst k. destruct (users d !! id); reflexivity.
    - intros k. rewrite lookup_alter. case_decide; [| reflexivity].
      subst k. destruct (users d !! id); reflexivity.
    - intros k Hk. apply lookup_alter_ne. congruence. }
  unfold button_handler, store_after.
  destruct (String.eqb_spec data "mode_basic") as [->|Hbasic].
  { simpl. destruct (Hmode "basic") as (H1 & H2 & H3 & H4).
    repeat split; auto. congruence. }
  destruct (String.eqb_spec data "mode_advanced") as [->|Hadvanced].
  { simpl. destruct (Hmode "advanced") as (H1 & H2 & H3 & H4).
    repeat split; auto. congruence. }
  repeat (destruct (String.eqb data _); [simpl; auto 10 |]);
    try destruct (top_tracks_listing E _); simpl; auto 10.
Qed.

(** X20. A mode button pressed by a user who has no row yet shows its menu
    but stores nothing, the [UPDATE] matching no row; the user's next
    free-text message then creates the row with mode ["basic"] and is
    handled in basic mode: the acquirer gets the text itself. *)
Theorem mode_choice_without_row_is_lost E E' downloaded_at u w :
  get_user (user_id u) (db w) = None ->
  button_handler E downloaded_at (user_id u) "mode_advanced" (db w)
  = (Ret tt, db w, [CallbackAnswered; MessageEdited AdvancedMenu])
  /\ exists w',
       message_handler E' u w = (Ret tt, w')
       /\ acquisitions (trace w') = acquisitions (trace w) ++ [text u]
       /\ get_user (user_id u) (db w')
          = Some {| username := display_name u; mode := "basic";
                    interaction_count := 1 |}.
Proof.
  intros Hrow. split.
  - unfold button_handler. simpl. do 2 f_equal.
    unfold get_user in Hrow. unfold update_mode, set_users.
    destruct (db w) as [rows dl]. simpl in *. f_equal.
    apply map_eq. intros k. rewrite lookup_alter. case_decide; [| reflexivity].
    subst k. rewrite Hrow. reflexivity.
  - assert (Hbasic : mode (row_of u (db w)) <> "advanced").
    { unfold row_of. unfold get_user in Hrow. rewrite Hrow. discriminate. }
    destruct (acquire_basic E' u w Hbasic) as (fp & w1 & Hacq).
    destruct (message_handler_checks_once _ _ _ _ _ _ _ Hacq) as (w' & Hrun & _).
    exists w'. split; [exact Hrun |]. split.
    + rewrite <- (message_handler_acquisitions _ _ _ _ _ _ _ Hacq), Hrun.
      reflexivity.
    + pose proof (message_handler_increments_once E' u w) as Husers.
      rewrite Hrun in Husers. simpl in Husers. unfold get_user.
      rewrite Husers, lookup_insert_eq. unfold row_of.
      unfold get_user in Hrow. rewrite Hrow. reflexivity.
Qed.

Lemma mode_choice_without_row_is_lost_witness :
  button_handler (Sample.env None true) Z.of_nat 7 "mode_advanced"
    (db Sample.empty_world)
  = (Ret tt, db Sample.empty_world, [CallbackAnswered; MessageEdited AdvancedMenu])
  /\ exists w',
       message_handler (Sample.env (Some Sample.yesterday) true)
         (Sample.ann "Yesterday") Sample.empty_world = (Ret tt, w')
       /\ acquisitions (trace w')
          = acquisitions (trace Sample.empty_world) ++ ["Yesterday"]
       /\ get_user 7 (db w')
          = Some {| username := "Ann"; mode := "basic"; interaction_count := 1 |}.
Proof.
  exact (mode_choice_without_row_is_lost (Sample.env None true)
           (Sample.env (Some Sample.yesterday) true) Z.of_nat
           (Sample.ann "Yesterday") Sample.empty_world eq_refl).
Defined.

Lemma mode_button_store E downloaded_at id d :
  store_after (button_handler E downloaded_at id "mode_basic" d)
  = update_mode id "basic" d
  /\ store_after (button_handler E downloaded_at id "mode_advanced" d)
     = update_mode id "advanced" d.
Proof. split; reflexivity. Qed.

(** X21. For a user who has a row the mode buttons decide how the next
    free-text message is handled: after the basic button the acquirer gets
    the text itself whatever the provider would answer; after the advanced
    button, with a non-empty list of result objects from the provider, it
    gets the artist and name of the first result. *)
Theorem mode_buttons_switch_the_flow E E' downloaded_at u w row :
  get_user (user_id u) (db w) = Some row ->
  (let w1 := set_db (store_after (button_handler E downloaded_at (user_id u)
                                    "mode_basic" (db w))) w in
   acquisitions (trace (snd (message_handler E' u w1)))
   = acquisitions (trace w) ++ [text u])
  /\ (forall top rest,
        search_track E' (text u) 5 = JList (JDict top :: rest) ->
        Forall (fun t => Py.is_dict t = true) rest ->
        let w1 := set_db (store_after (button_handler E downloaded_at (user_id u)
                                         "mode_advanced" (db w))) w in
        acquisitions (trace (snd (message_handler E' u w1)))
        = acquisitions (trace w)
          ++ [shown_field E' "artist" top +:+ " " +:+ shown_field E' "name" top]).
Proof.
  intros Hrow. unfold get_user in Hrow.
  assert (Hmode : forall m,
            mode (row_of u (db (set_db (update_mode (user_id u) m (db w)) w))) = m).
  { intros m. unfold row_of, update_mode. simpl.
    rewrite lookup_alter_eq, Hrow. reflexivity. }
  split.
  - cbv zeta. rewrite (proj1 (mode_button_store E downloaded_at (user_id u) (db w))).
    set (w1 := set_db (update_mode (user_id u) "basic" (db w)) w).
    assert (Hbasic : mode (row_of u (db w1)) <> "advanced").
    { subst w1. rewrite Hmode. discriminate. }
    destruct (acquire_basic E' u w1 Hbasic) as (fp & w2 & Hacq).
    rewrite (message_handler_acquisitions _ _ _ _ _ _ _ Hacq). reflexivity.
  - intros top rest Hsearch Hrest. cbv zeta.
    rewrite (proj2 (mode_button_store E downloaded_at (user_id u) (db w))).
    set (w1 := set_db (update_mode (user_id u) "advanced" (db w)) w).
    destruct (result_lines_of_objects E' (JDict top :: rest)) as (lines & Hlines).
    { constructor; [reflexivity | exact Hrest]. }
    edestruct (acquire_returns E' u w1
                 (shown_field E' "artist" top +:+ " " +:+ shown_field E' "name" top))
      as (fp & w2 & Hacq).
    { unfold choose_download_query. subst w1. rewrite Hmode, Hsearch. simpl.
      unfold search_listing, first_result_query. simpl Py.iter. simpl Py.first.
      unfold obind at 1. rewrite Hlines. run_monad.
      unfold shown_field, default.
      destruct (Py.assoc "artist" top), (Py.assoc "name" top); reflexivity. }
    rewrite (message_handler_acquisitions _ _ _ _ _ _ _ Hacq). reflexivity.
Qed.

Lemma mode_buttons_switch_the_flow_witness :
  let E' := Sample.env (Some Sample.yesterday) true in
  acquisitions (trace (snd (message_handler E' (Sample.ann "Yesterday")
     (set_db (store_after (button_handler E' Z.of_nat 7 "mode_basic"
                             (db (Sample.known_world true))))
             (Sample.known_world true)))))
  = ["Yesterday"]
  /\ acquisitions (trace (snd (message_handler E' (Sample.ann "Yesterday")
       (set_db (store_after (button_handler E' Z.of_nat 7 "mode_advanced"
                               (db (Sample.known_world false))))
               (Sample.known_world false)))))
     = ["The Beatles Yesterday"].
Proof.
  intros E'. split.
  - exact (proj1 (mode_buttons_switch_the_flow E' E' Z.of_nat
                    (Sample.ann "Yesterday") (Sample.known_world true)
                    {| username := "Ann"; mode := "advanced"; interaction_count := 0 |}
                    eq_refl)).
  - refine (proj2 (mode_buttons_switch_the_flow E' E' Z.of_nat
                     (Sample.ann "Yesterday") (Sample.known_world false)
                     {| username := "Ann"; mode := "basic"; interaction_count := 0 |}
                     eq_refl)
              [("name", JStr "Yesterday"); ("artist", JStr "The Beatles")]
              [Sample.track "Boyz II Men" "Yesterday"]
              eq_refl _).
    repeat constructor.
Defined.

(** Every entry of the history is a download of that user. *)
Lemma get_user_history_bounded_rows downloaded_at id limit d :
  Forall (fun entry =>
            exists row, row ∈ downloads d
                        /\ dl_user_id row = id
                        /\ entry = (dl_track_name row, dl_artist row))
         (get_user_history downloaded_at id limit d).
Proof.
  apply Forall_forall. intros entry Hentry. unfold get_user_history in Hentry.
  apply list_elem_of_fmap in Hentry as (sr & -> & Hsr).
  unfold history_rows in Hsr.
  apply sql_limit_sublist in Hsr. rewrite order_desc_perm in Hsr.
  apply list_elem_of_filter in Hsr as [Hid Hsr].
  apply elem_of_stamped in Hsr as (i & Hi & _).
  exists (snd sr). split; [| auto]. eapply list_elem_of_lookup_2, Hi.
Qed.

Lemma get_user_history_length downloaded_at id limit d :
  (0 <= limit)%Z ->
  length (get_user_history downloaded_at id limit d)
  = Nat.min (Z.to_nat limit)
      (length (filter (fun row => dl_user_id row = id) (downloads d))).
Proof.
  intros Hlimit. unfold get_user_history, history_rows, sql_limit.
  destruct (Z.ltb_spec limit 0); [lia |].
  rewrite length_map, length_take, order_desc_perm.
  rewrite <- (stamped_rows downloaded_at (downloads d) id), length_map.
  reflexivity.
Qed.

(** X22. The history button changes nothing and shows the empty-history
    text exactly when the user has no download; otherwise it shows between
    one and ten lines, as many as the user has downloads up to ten, each the
    artist and title of a download of that user. *)
Theorem history_screen E downloaded_at id d :
  exists s,
    button_handler E downloaded_at id "adv_history" d
    = (Ret tt, d, [CallbackAnswered; MessageEdited s])
    /\ (filter (fun row => dl_user_id row = id) (downloads d) = []
        -> s = HistoryEmpty)
    /\ (filter (fun row => dl_user_id row = id) (downloads d) <> []
        -> exists lines,
             s = History lines
             /\ length lines
                = Nat.min 10 (length (filter (fun row => dl_user_id row = id)
                                             (downloads d)))
             /\ (0 < length lines <= 10)%nat
             /\ Forall (fun line =>
                          exists row, row ∈ downloads d
                                      /\ dl_user_id row = id
                                      /\ line = (dl_artist row, dl_track_name row))
                       lines).
Proof.
  pose proof (get_user_history_length downloaded_at id 10 d ltac:(lia)) as Hlen.
  change (Z.to_nat 10) with 10%nat in Hlen.
  pose proof (get_user_history_bounded_rows downloaded_at id 10 d) as Hrows.
  unfold button_handler. simpl String.eqb. cbv iota.
  destruct (get_user_history downloaded_at id 10 d) as [|entry history] eqn:Hhist.
  - eexists. split; [reflexivity |]. split; [reflexivity |].
    intros Hne. exfalso. simpl in Hlen.
    destruct (filter _ (downloads d)); [contradiction | simpl in Hlen; lia].
  - eexists. split; [reflexivity |]. split.
    + intros Hnil. rewrite Hnil in Hlen. simpl in Hlen. lia.
    + intros _. eexists. split; [reflexivity |].
      rewrite !length_map. split; [exact Hlen |].
      split; [simpl length in *; lia |].
      apply Forall_forall. intros line Hline.
      apply list_elem_of_fmap in Hline as (e & -> & He).
      rewrite Forall_forall in Hrows. destruct (Hrows e He) as (row & Hrow & Hid & ->).
      exists row. auto.
Qed.

Lemma chart_lines_listable E tracks :
  if forallb listable tracks
  then exists lines, omap (chart_line E) tracks = Ret lines
                     /\ length lines = length tracks
  else omap (chart_line E) tracks = Raise AttributeError.
Proof.
  induction tracks as [|t tracks IH]; simpl; [eauto |].
  pose proof (similar_line_listable E t) as Ht.
  change (similar_line E t) with (chart_line E t) in Ht.
  destruct (listable t); simpl.
  - destruct Ht as (line & ->). simpl.
    destruct (forallb listable tracks).
    + destruct IH as (lines & -> & Hlen). simpl. eexists. split; [reflexivity |].
      simpl. congruence.
    + rewrite IH. reflexivity.
  - rewrite Ht. reflexivity.
Qed.

(** X23. The chart button never changes the store. When the request fails
    it ends on the could-not-load text; for a non-empty list of tracks that
    are objects with an object (or no) artist it ends on a chart with one
    line per track; when a track of the list is of another shape the handler
    raises [AttributeError] and the user is left on the loading text. *)
Theorem top_tracks_screen E downloaded_at id d :
  (http_get_json E (top_params E 10) = None ->
   button_handler E downloaded_at id "adv_top_tracks" d
   = (Ret tt, d, [CallbackAnswered; MessageEdited LoadingTopTracks;
                  MessageEdited (TopTracks TopTracksFailed)]))
  /\ (forall t tracks,
        get_top_tracks E 10 = JList (t :: tracks) ->
        forallb listable (t :: tracks) = true ->
        exists lines,
          length lines = length (t :: tracks)
          /\ button_handler E downloaded_at id "adv_top_tracks" d
             = (Ret tt, d, [CallbackAnswered; MessageEdited LoadingTopTracks;
                            MessageEdited (TopTracks (TopTracksList lines))]))
  /\ (forall tracks,
        get_top_tracks E 10 = JList tracks ->
        forallb listable tracks = false ->
        button_handler E downloaded_at id "adv_top_tracks" d
        = (Raise AttributeError, d,
           [CallbackAnswered; MessageEdited LoadingTopTracks]))
  /\ store_after (button_handler E downloaded_at id "adv_top_tracks" d) = d.
Proof.
  unfold store_after, button_handler. simpl String.eqb. cbv iota.
  split; [| split; [| split]];
    [ | | | destruct (top_tracks_listing E _); reflexivity].
  - intros Hget. unfold get_top_tracks. rewrite Hget. reflexivity.
  - intros t tracks -> Hok.
    pose proof (chart_lines_listable E (t :: tracks)) as Hlines.
    rewrite Hok in Hlines. destruct Hlines as (lines & Hlines & Hlen).
    exists lines. split; [exact Hlen |].
    unfold top_tracks_listing. simpl Py.truthy. simpl Py.iter.
    unfold obind at 1. rewrite Hlines. reflexivity.
  - intros tracks -> Hbad.
    destruct tracks as [|t tracks]; [discriminate |].
    pose proof (chart_lines_listable E (t :: tracks)) as Hlines.
    rewrite Hbad in Hlines.
    unfold top_tracks_listing. simpl Py.truthy. simpl Py.iter.
    unfold obind at 1. rewrite Hlines. reflexivity.
Qed.

Lemma top_tracks_screen_witness :
  button_handler (Sample.env None true) Z.of_nat 7 "adv_top_tracks"
    (db Sample.empty_world)
  = (Ret tt, db Sample.empty_world,
     [CallbackAnswered; MessageEdited LoadingTopTracks;
      MessageEdited (TopTracks TopTracksFailed)])
  /\ button_handler
       (Sample.env (Some (Sample.top_body (JList [Sample.track "Queen" "Flash"]))) true)
       Z.of_nat 7 "adv_top_tracks" (db Sample.empty_world)
     = (Raise AttributeError, db Sample.empty_world,
        [CallbackAnswered; MessageEdited LoadingTopTracks]).
Proof.
  split.
  - exact (proj1 (top_tracks_screen (Sample.env None true) Z.of_nat 7
                    (db Sample.empty_world)) eq_refl).
  - exact (proj1 (proj2 (proj2 (top_tracks_screen
                                  (Sample.env (Some (Sample.top_body
                                                       (JList [Sample.track "Queen" "Flash"])))
                                              true)
                                  Z.of_nat 7 (db Sample.empty_world))))
             [Sample.track "Queen" "Flash"] eq_refl eq_refl).
Defined.

(** X24. [/start] is what makes a mode button work for a newcomer: it
    creates the row (display name, mode ["basic"], counter [0]) and greets
    by first name, so that the advanced button pressed next is stored; for a
    user who already has a row it changes nothing, mode and counter
    included. *)
Theorem start_registers_newcomer E downloaded_at u d :
  snd (start u d) = [MenuReplied (Welcome (first_name u))]
  /\ (get_user (user_id u) d = None ->
      get_user (user_id u) (fst (start u d))
      = Some {| username := display_name u; mode := "basic";
                interaction_count := 0 |}
      /\ get_user (user_id u)
           (store_after (button_handler E downloaded_at (user_id u)
                           "mode_advanced" (fst (start u d))))
         = Some {| username := display_name u; mode := "advanced";
                   interaction_count := 0 |})
  /\ (is_Some (get_user (user_id u) d) -> fst (start u d) = d)
  /\ start u (fst (start u d)) = start u d.
Proof.
  unfold start, get_user. simpl. split; [reflexivity |].
  split; [| split].
  - intros Hnone. split.
    + rewrite create_user_lookup. unfold row_of. rewrite Hnone. reflexivity.
    + unfold store_after, button_handler, update_mode. simpl.
      rewrite lookup_alter_eq, create_user_lookup. unfold row_of.
      rewrite Hnone. reflexivity.
  - intros [row Hrow]. unfold create_user. rewrite Hrow. reflexivity.
  - f_equal. unfold create_user at 1. rewrite create_user_lookup. reflexivity.
Qed.

Lemma start_registers_newcomer_witness :
  get_user 7 (fst (start (Sample.ann "") (db Sample.empty_world)))
  = Some {| username := "Ann"; mode := "basic"; interaction_count := 0 |}
  /\ get_user 7
       (store_after (button_handler (Sample.env None true) Z.of_nat 7
                       "mode_advanced"
                       (fst (start (Sample.ann "") (db Sample.empty_world)))))
     = Some {| username := "Ann"; mode := "advanced"; interaction_count := 0 |}.
Proof.
  exact (proj1 (proj2 (start_registers_newcomer (Sample.env None true) Z.of_nat
                         (Sample.ann "") (db Sample.empty_world))) eq_refl).
Defined.

(** ** The client's session *)

(** The state of a client after the calls [calls], oldest first. *)
Definition after_calls (calls : list client_call) (c : ClientState) : ClientState :=
  foldl client_step c calls.

(** What holds of a client from its creation on: it has made no session and
    holds none, or it has made exactly one, numbered [0], and holds it; only
    that one can have been closed. *)
Definition client_invariant (c : ClientState) : Prop :=
  (session c = None /\ sessions_made c = 0%nat /\ sessions_closed c = ∅)
  \/ (session c = Some 0%nat /\ sessions_made c = 1%nat
      /\ sessions_closed c ⊆ {[0%nat]}).

Lemma client_step_invariant c call :
  client_invariant c -> client_invariant (client_step c call).
Proof.
  intros [(Hs & Hm & Hc) | (Hs & Hm & Hc)]; destruct call; simpl;
    unfold get_session, close; rewrite Hs; simpl.
  - right. rewrite Hm, Hc. repeat split; try reflexivity.
    apply empty_subseteq.
  - left. auto.
  - right. auto.
  - right. repeat split; auto. apply union_least; [reflexivity | exact Hc].
Qed.

(** X25. One client makes at most one session, whatever the sequence of
    [get_session] and [close] calls: every [get_session] hands out that
    same session. [close] closes it without forgetting it, so a
    [get_session] after a [close] hands out the closed session again. *)
Theorem client_makes_one_session calls :
  let c := after_calls calls new_client in
  (sessions_made c <= 1)%nat
  /\ fst (get_session c) = 0%nat
  /\ (sessions_made (snd (get_session c)) = 1)%nat
  /\ fst (get_session (close (snd (get_session c)))) = 0%nat
  /\ 0%nat ∈ sessions_closed (close (snd (get_session c)))
  /\ sessions_made (snd (get_session (close (snd (get_session c))))) = 1%nat.
Proof.
  intros c.
  assert (Hinv : client_invariant c).
  { subst c. unfold after_calls.
    assert (Hnew : client_invariant new_client) by (left; auto).
    revert Hnew. generalize new_client.
    induction calls as [|call calls IH]; intros c0 Hc0; simpl; [exact Hc0 |].
    apply IH, client_step_invariant, Hc0. }
  destruct Hinv as [(Hs & Hm & Hc) | (Hs & Hm & Hc)];
    unfold get_session, close; rewrite Hs; simpl; rewrite ?Hs, Hm; simpl;
    repeat split; auto; set_solver.
Qed.

(** ** The cadence over many messages *)

Lemma ad_due_step c :
  (0 <= c)%Z ->
  ((c + 1) / 10 - c / 10)%Z = if should_show_ad (c + 1) then 1%Z else 0%Z.
Proof.
  intros Hc. unfold should_show_ad.
  destruct (Z.ltb_spec 0 (c + 1)); [| lia]. simpl.
  destruct (Z.eqb_spec ((c + 1) `mod` 10) 0) as [Hmod|Hmod];
    Z.div_mod_to_equations; lia.
Qed.

(** X26. One advertisement per ten messages. For a user in basic mode whose
    counter is [c], a sequence of [n] free-text messages from that user gets
    as many advertisements as there are multiples of ten above [c] and up to
    [c + n]. *)
Theorem one_ad_every_ten_messages msgs w id row :
  get_user id (db w) = Some row ->
  mode row <> "advanced" ->
  (0 <= interaction_count row)%Z ->
  Forall (fun m => user_id (snd m) = id) msgs ->
  Z.of_nat (length (ads (trace (run_messages msgs w))))
  = (Z.of_nat (length (ads (trace w)))
     + (interaction_count row + Z.of_nat (length msgs)) / 10
     - interaction_count row / 10)%Z.
Proof.
  unfold get_user. revert w row.
  induction msgs as [|[E u] msgs IH]; intros w row Hrow Hmode Hcount Hmsgs.
  - simpl. rewrite Z.add_0_r. lia.
  - apply Forall_cons in Hmsgs as [Hid Hmsgs]. simpl in Hid. subst id.
    rewrite run_messages_cons. simpl fst. simpl snd.
    assert (Hrow_of : row_of u (db w) = row).
    { unfold row_of. rewrite Hrow. reflexivity. }
    assert (Hbasic : mode (row_of u (db w)) <> "advanced").
    { rewrite Hrow_of. exact Hmode. }
    destruct (acquire_basic E u w Hbasic) as (fp & w1 & Hacq).
    destruct (message_handler_checks_once _ _ _ _ _ _ _ Hacq) as (w2 & Hrun & _).
    destruct (message_handler_summary E u w) as (o & w' & evs & Hrun' & Htrace & Ho).
    rewrite Hrun in Hrun'. injection Hrun' as <- <-.
    destruct Ho as (dq & _ & _ & Hads & _). rewrite Hrow_of in Hads.
    pose proof (message_handler_increments_once E u w) as Husers.
    rewrite Hrun, Hrow_of in Husers. simpl in Husers.
    rewrite Hrun. simpl snd.
    rewrite (IH w2 (bump row)).
    + rewrite Htrace, ads_app, length_app, Hads. simpl interaction_count.
      pose proof (ad_due_step (interaction_count row) Hcount) as Hstep.
      destruct (should_show_ad (interaction_count row + 1)); simpl length;
        replace (interaction_count row + 1 + Z.of_nat (length msgs))%Z
          with (interaction_count row + Z.of_nat (S (length msgs)))%Z by lia;
        lia.
    + rewrite Husers. apply lookup_insert_eq.
    + exact Hmode.
    + simpl. lia.
    + exact Hmsgs.
Qed.

Lemma one_ad_every_ten_messages_witness :
  let m := (Sample.env None true, Sample.ann "Believer") in
  Z.of_nat (length (ads (trace (run_messages (replicate 20 m)
                                  (Sample.known_world false)))))
  = (Z.of_nat (length (ads (trace (Sample.known_world false))))
     + (0 + Z.of_nat (length (replicate 20 m))) / 10 - 0 / 10)%Z.
Proof.
  intros m.
  refine (one_ad_every_ten_messages (replicate 20 m) (Sample.known_world false) 7
            {| username := "Ann"; mode := "basic"; interaction_count := 0 |}
            eq_refl _ _ _).
  - discriminate.
  - simpl. lia.
  - apply Forall_replicate. reflexivity.
Defined.

(** ** The clean-up *)

(** X27. After the acquisition, [message_handler] removes a file only on a
    successful delivery, and then only the artifact that was sent: in every
    other case (nothing acquired, no file at the path, send failed) the
    files are exactly those the acquisition left. *)
Theorem clean_up_removes_only_the_artifact E u w count download_query file_path w1 :
  acquire E u w = (Ret (count, download_query, file_path), w1) ->
  (forall path,
     file_path = Some path -> path ∈ files w1 ->
     reply_audio_ok E path download_query = true ->
     files (snd (message_handler E u w)) = files w1 ∖ {[path]})
  /\ ((file_path = None
       \/ exists path, file_path = Some path
                       /\ (path ∉ files w1
                           \/ reply_audio_ok E path download_query = false)) ->
      files (snd (message_handler E u w)) = files w1).
Proof.
  intros Hacq.
  destruct (acquire_inv _ _ _ _ _ _ _ Hacq) as (_ & _ & _ & _ & Htruthy & _).
  rewrite (message_handler_after_acquire _ _ _ _ _ _ _ Hacq).
  unfold bind. split.
  - intros path -> Hin Hsend.
    rewrite (deliver_sent _ _ _ _ _ (Htruthy _ eq_refl) Hin Hsend).
    rewrite show_ad_run. reflexivity.
  - intros Hcase.
    assert (Hmissing_or_failed :
              (file_path = None \/ exists path, file_path = Some path /\ path ∉ files w1)
              \/ exists path, file_path = Some path /\ path ∈ files w1
                              /\ reply_audio_ok E path download_query = false).
    { destruct Hcase as [-> | (path & -> & Hpath)]; [auto |].
      destruct (decide (path ∈ files w1)) as [Hin|Hout]; [| eauto].
      destruct Hpath as [Hout | Hsend]; [contradiction | eauto 10]. }
    destruct Hmissing_or_failed as [Hmissing | (path & -> & Hin & Hsend)].
    + rewrite (deliver_not_acquired _ _ _ _ _ Hmissing).
      rewrite show_ad_run. reflexivity.
    + rewrite (deliver_send_failed _ _ _ _ _ (Htruthy _ eq_refl) Hin Hsend).
      rewrite show_ad_run. reflexivity.
Qed.

Lemma clean_up_removes_only_the_artifact_witness :
  let E := Sample.env None true in
  let u := Sample.ann "Imagine Dragons Believer" in
  let w := Sample.known_world false in
  files (snd (message_handler E u w))
  = ({["/tmp/song.mp3"]} ∪ ∅) ∖ {["/tmp/song.mp3"]}.
Proof.
  intros E u w.
  refine (proj1 (clean_up_removes_only_the_artifact E u w 1
                   "Imagine Dragons Believer" (Some "/tmp/song.mp3")
                   {| db := {| users := <[7%Z := bump (row_of u (db w))]> (users (db w));
                               downloads := [] |};
                      files := {["/tmp/song.mp3"]} ∪ ∅;
                      trace := [Replied SearchingMusic; Replied Downloading;
                                Acquired "Imagine Dragons Believer"] |} _)
            "/tmp/song.mp3" eq_refl _ eq_refl).
  - vm_compute. reflexivity.
  - simpl. apply elem_of_union_l, elem_of_singleton. reflexivity.
Defined.
